(** * XmlFactory: path-addressed construction of XML trees

    A shallow embedding of [xml_factory/_xml_factory.py].

    Python objects have identity and are mutated in place, so the tree is
    kept in a store of elements addressed by references; a facade holds a
    reference, never a copy.  Every method is a computation over the store
    that either returns a value or raises, and the store survives a raise.

    The tree representation ([xml.etree.ElementTree]) is a collaborator of
    the program.  It is modelled by what the program uses of it:
    [Element(tag)], [SubElement(parent, tag)], [parent.find(path)] and the
    assignments to [attrib] and [text].  [find] reads its argument as an
    ElementPath expression.  For a tag name it answers the first direct
    child, in document order, with that tag; [.] is the element itself,
    [*] its first child and [..] nothing.  Every other expression
    (predicates, wildcards in braces, prefixes, blanks, the empty string)
    is left to a parameter that stands for the rest of ElementPath and may
    answer an element, nothing, or raise.

    [Write] only opens a file around [GetContents] and is left out. *)

From Stdlib Require Import String Ascii List ZArith Lia Bool.
From stdpp Require Import base option list gmap strings pretty.

Local Open Scope string_scope.
Local Open Scope list_scope.

(** ** Python strings *)

Module PyStr.

(** ['c' in s] for a one-character needle. *)
Fixpoint contains (c : ascii) (s : string) : bool :=
  match s with
  | EmptyString => false
  | String a rest => if Ascii.eqb a c then true else contains c rest
  end.

(** [s.count(c)]: how many times the character occurs. *)
Fixpoint count (c : ascii) (s : string) : nat :=
  match s with
  | EmptyString => 0
  | String a rest => (if Ascii.eqb a c then 1 else 0) + count c rest
  end.

(** A character of a plain tag name: a letter, a digit, [_] or [-].  None
    of them means anything to ElementPath. *)
Definition is_name_char (a : ascii) : bool :=
  let n := nat_of_ascii a in
  (((48 <=? n) && (n <=? 57)) || ((65 <=? n) && (n <=? 90))
   || ((97 <=? n) && (n <=? 122)) || (n =? 95) || (n =? 45))%nat.

Fixpoint name_chars (s : string) : bool :=
  match s with
  | EmptyString => true
  | String a rest => is_name_char a && name_chars rest
  end.

(** A plain tag name: not empty, and name characters only. *)
Definition is_tag_name (s : string) : bool :=
  match s with
  | EmptyString => false
  | String _ _ => name_chars s
  end.

(** [s.endswith(c)] for a one-character suffix. *)
Fixpoint endswith (s : string) (c : ascii) : bool :=
  match s with
  | EmptyString => false
  | String a EmptyString => Ascii.eqb a c
  | String _ rest => endswith rest c
  end.

(** [s[:-1]]: all but the last character (empty stays empty). *)
Fixpoint drop_last (s : string) : string :=
  match s with
  | EmptyString => EmptyString
  | String _ EmptyString => EmptyString
  | String a rest => String a (drop_last rest)
  end.

(** [s.split(sep)] for a one-character separator: never empty, and the
    empty string splits into one empty part. *)
Fixpoint split (sep : ascii) (s : string) : list string :=
  match s with
  | EmptyString => [EmptyString]
  | String a rest =>
      if Ascii.eqb a sep then EmptyString :: split sep rest
      else match split sep rest with
           | [] => [String a EmptyString]
           | p :: ps => String a p :: ps
           end
  end.

(** [s.rsplit(sep)] with no [maxsplit]: every separator is a cut, so the
    parts are those of [split]. *)
Definition rsplit (sep : ascii) (s : string) : list string := split sep s.

End PyStr.

(** ** Values and their string form *)

Inductive PyValue : Type :=
| PyString (s : string)
| PyInt (z : Z)
| PyBool (b : bool)
| PyNone.

(** [str(value)], which is also [six.text_type(value)] under Python 3. *)
Definition str (v : PyValue) : string :=
  match v with
  | PyString s => s
  | PyInt z => pretty z
  | PyBool true => "True"
  | PyBool false => "False"
  | PyNone => "None"
  end.

(** ** The element store *)

Abbreviation ref := nat.

Record Element : Type := mkElement {
  tag : string;
  children : list ref;
  attrib : gmap string string;
  text : option string
}.

Abbreviation Store := (list Element).

Definition with_children (e : Element) (cs : list ref) : Element :=
  mkElement (tag e) cs (attrib e) (text e).

Definition with_attrib (e : Element) (a : gmap string string) : Element :=
  mkElement (tag e) (children e) a (text e).

Definition with_text (e : Element) (t : option string) : Element :=
  mkElement (tag e) (children e) (attrib e) t.

(** ** Computations: state passing with exceptions *)

Inductive Exception : Type :=
| TypeError | ValueError | AssertionError | SyntaxError.

Inductive Result (A : Type) : Type :=
| Ok (a : A)
| Raise (e : Exception).
Arguments Ok {A} a.
Arguments Raise {A} e.

Definition M (A : Type) : Type := Store -> Result A * Store.

Definition ret {A} (a : A) : M A := fun s => (Ok a, s).

Definition raise {A} (e : Exception) : M A := fun s => (Raise e, s).

Definition bind {A B} (m : M A) (k : A -> M B) : M B :=
  fun s => match m s with
           | (Ok a, s') => k a s'
           | (Raise e, s') => (Raise e, s')
           end.

Notation "'do' x <- m ; k" := (bind m (fun x => k))
  (at level 10, x name, m at level 100, k at level 200).

(** ** The tree collaborator *)

(** The rest of ElementPath: what [find] answers, from an element of the
    store, for an expression that is neither a tag name nor one of [.],
    [*] and [..].  A malformed expression raises ([SyntaxError], or
    [TypeError] for a predicate left open). *)
Definition ElementPath := Store -> ref -> string -> Result (option ref).

Module ElementTree.

(** [ElementTree.Element(tag)]: a fresh element with no children, no
    attributes and no text; its reference is the next free slot. *)
Definition new_Element (t : string) : M ref :=
  fun s => (Ok (length s), s ++ [mkElement t [] ∅ None]).

(** [parent.append(child)]. *)
Definition append (parent child : ref) : M unit :=
  fun s => match s !! parent with
           | Some e => (Ok tt, <[parent := with_children e (children e ++ [child])]> s)
           | None => (Ok tt, s)
           end.

(** [ElementTree.SubElement(parent, tag)]. *)
Definition SubElement (parent : ref) (t : string) : M ref :=
  do r <- new_Element t;
  do _ <- append parent r;
  ret r.

(** First reference of [cs] that holds an element tagged [t]. *)
Fixpoint first_tagged (s : Store) (t : string) (cs : list ref) : option ref :=
  match cs with
  | [] => None
  | c :: rest =>
      match s !! c with
      | Some e => if String.eqb (tag e) t then Some c else first_tagged s t rest
      | None => first_tagged s t rest
      end
  end.

(** First reference of [cs] that holds an element. *)
Fixpoint first_element (s : Store) (cs : list ref) : option ref :=
  match cs with
  | [] => None
  | c :: rest =>
      match s !! c with
      | Some _ => Some c
      | None => first_element s rest
      end
  end.

(** [parent.find(path)]; [None] is Python's [None].  The store is only
    read.  [..] asks for a parent inside the subtree that is searched,
    which the element searched from does not have in a tree.  An answer
    is always an element of the tree. *)
Definition find (xpath : ElementPath) (parent : ref) (path : string)
  : M (option ref) :=
  fun s =>
    match s !! parent with
    | None => (Ok None, s)
    | Some e =>
        if PyStr.is_tag_name path then (Ok (first_tagged s path (children e)), s)
        else if String.eqb path "." then (Ok (Some parent), s)
        else if String.eqb path "*" then (Ok (first_element s (children e)), s)
        else if String.eqb path ".." then (Ok None, s)
        else match xpath s parent path with
             | Ok (Some r) =>
                 match s !! r with
                 | Some _ => (Ok (Some r), s)
                 | None => (Ok None, s)
                 end
             | Ok None => (Ok None, s)
             | Raise x => (Raise x, s)
             end
    end.

(** [element.attrib[name] = value]. *)
Definition set_attrib (r : ref) (name value : string) : M unit :=
  fun s => match s !! r with
           | Some e => (Ok tt, <[r := with_attrib e (<[name := value]> (attrib e))]> s)
           | None => (Ok tt, s)
           end.

(** [element.text = value]. *)
Definition set_text (r : ref) (value : string) : M unit :=
  fun s => match s !! r with
           | Some e => (Ok tt, <[r := with_text e (Some value)]> s)
           | None => (Ok tt, s)
           end.

End ElementTree.

(** ** Output streams and the pretty-printer *)

(** A text stream is what has been written to it so far. *)
Definition Stream := string.

(** [io.StringIO()] and [oss.getvalue()]. *)
Definition StringIO : Stream := "".
Definition getvalue (oss : Stream) : string := oss.

(** [oss.write(data)]. *)
Definition Stream_write (oss : Stream) (data : string) : M Stream :=
  ret (oss ++ data)%string.

Definition quote : string := String "034"%char "".
Definition newline : string := String "010"%char "".

(** The literal of [Print]: the XML declaration and a line feed. *)
Definition xml_declaration : string :=
  ("<?xml version=" ++ quote ++ "1.0" ++ quote ++ " ?>" ++ newline)%string.

(** The text that the pretty-printer produces for the tree below an
    element. *)
Definition PrettyPrinter := Store -> ref -> string.

(** Modelled from the spec: [_pretty_xml.WritePrettyXMLElement] is not
    among the sources.  The spec gives it as a function of an output stream
    and an element that writes the indented XML text of the tree rooted
    there; the layout is left to it.  It is taken as a rendering [render]
    that reads the tree and writes its text at the end of the stream. *)
Definition WritePrettyXMLElement (render : PrettyPrinter)
    (oss : Stream) (element : ref) : M Stream :=
  fun s => Stream_write oss (render s element) s.

(** ** The facade *)

Record XmlFactory : Type := mkXmlFactory { root : ref }.

(** What a caller may pass as [root_element]. *)
Inductive RootArg : Type :=
| ArgValue (v : PyValue)
| ArgElement (r : ref).

Module Factory.

(** [XmlFactory.__init__]. *)
Definition __init__ (root_element : RootArg) : M XmlFactory :=
  match root_element with
  | ArgValue (PyString t) =>
      do r <- ElementTree.new_Element t;
      ret (mkXmlFactory r)
  | ArgElement r => ret (mkXmlFactory r)
  | ArgValue _ => raise TypeError
  end.

(** One turn of the loop of [_ObtainElement]: the element that the part
    [i_part] designates under [parent]. *)
Definition obtain_part (xpath : ElementPath) (parent : ref) (i_part : string)
  : M ref :=
  if PyStr.endswith i_part "+" then
    ElementTree.SubElement parent (PyStr.drop_last i_part)
  else
    do result <- ElementTree.find xpath parent i_part;
    match result with
    | Some r => ret r
    | None => ElementTree.SubElement parent i_part
    end.

(** The loop of [_ObtainElement] over the remaining parts; after each
    turn [parent] is the element just obtained, and the loop ends on it. *)
Fixpoint obtain_parts (xpath : ElementPath) (parts : list string) (parent : ref)
  : M ref :=
  match parts with
  | [] => ret parent
  | i_part :: rest =>
      do result <- obtain_part xpath parent i_part;
      obtain_parts xpath rest result
  end.

(** [XmlFactory._ObtainElement]. *)
Definition _ObtainElement (xpath : ElementPath) (self : XmlFactory) (name : string)
  : M ref :=
  if String.eqb name "" then ret (root self)
  else obtain_parts xpath (PyStr.split "/" name) (root self).

(** [XmlFactory.__setitem__]. *)
Definition __setitem__ (xpath : ElementPath) (self : XmlFactory) (name : string)
    (value : PyValue) : M XmlFactory :=
  if PyStr.contains "@" name then
    match PyStr.rsplit "@" name with
    | [element_name; attr_name] =>
        do result <- _ObtainElement xpath self element_name;
        do _ <- ElementTree.set_attrib result attr_name (str value);
        __init__ (ArgElement result)
    | _ => raise ValueError
    end
  else
    do result <- _ObtainElement xpath self name;
    do _ <- ElementTree.set_text result (str value);
    __init__ (ArgElement result).

(** [XmlFactory.__getitem__]. *)
Definition __getitem__ (xpath : ElementPath) (self : XmlFactory) (name : string)
  : M XmlFactory :=
  if PyStr.contains "@" name then raise AssertionError
  else
    do result <- _ObtainElement xpath self name;
    __init__ (ArgElement result).

(** [XmlFactory.Print]; the stream defaults to [sys.stdout] in the
    source and is always passed here. *)
Definition Print (render : PrettyPrinter) (self : XmlFactory)
    (oss : Stream) (xml_header : bool) : M Stream :=
  do oss <- (if xml_header then Stream_write oss xml_declaration else ret oss);
  WritePrettyXMLElement render oss (root self).

(** [XmlFactory.GetContents]. *)
Definition GetContents (render : PrettyPrinter) (self : XmlFactory)
    (xml_header : bool) : M string :=
  do oss <- ret StringIO;
  do oss <- Print render self oss xml_header;
  ret (getvalue oss).

End Factory.

(** ** What the statements speak about *)

(** The element at [c] carries the tag [t]. *)
Definition has_tag (s : Store) (c : ref) (t : string) : Prop :=
  exists ec, s !! c = Some ec /\ tag ec = t.

(** [c] is the first of [cs], in order, that carries the tag [t]. *)
Definition first_match (s : Store) (t : string) (cs : list ref) (c : ref) : Prop :=
  exists pre post,
    cs = pre ++ c :: post /\ has_tag s c t /\ (forall d, d ∈ pre -> ~ has_tag s d t).

(** The store after a fresh element tagged [t] was appended to the
    children of [parent], whose record was [e]. *)
Definition store_with_child (s : Store) (parent : ref) (e : Element) (t : string)
  : Store :=
  <[parent := with_children e (children e ++ [length s])]>
    (s ++ [mkElement t [] ∅ None]).

(** Every part of the path [name] is a plain tag name: no part is empty,
    carries the force marker or means anything to ElementPath. *)
Definition tag_path (name : string) : bool :=
  forallb PyStr.is_tag_name (PyStr.split "/" name).

(** A part that is resolved without ElementPath having a say: it carries
    the force marker, or it is a plain tag name. *)
Definition safe_part (i_part : string) : bool :=
  PyStr.endswith i_part "+" || PyStr.is_tag_name i_part.

(** A path made of such parts, or the empty path. *)
Definition safe_path (name : string) : bool :=
  String.eqb name "" || forallb safe_part (PyStr.split "/" name).

(** Every child reference of the store designates an element of it, as
    every child of a Python element is an object. *)
Definition well_formed (s : Store) : Prop :=
  forall i e d, s !! i = Some e -> d ∈ children e -> d < length s.

(** [s'] is [s] after some path resolutions and assignments: elements keep
    their place and their tag, and children are only added at the end. *)
Definition extends (s s' : Store) : Prop :=
  forall i e, s !! i = Some e ->
    exists e', s' !! i = Some e' /\ tag e' = tag e
               /\ exists extra, children e' = children e ++ extra.

(** Elements of [s] keep their tag, text and attributes in [s']. *)
Definition keeps_content (s s' : Store) : Prop :=
  forall i e, s !! i = Some e ->
    exists e', s' !! i = Some e' /\ tag e' = tag e /\ text e' = text e
               /\ attrib e' = attrib e.

(** What a path resolution from [s] leaves behind: a result [r] that
    designates an element of the new store [s'], the old elements with
    their content, and a store that is still well formed. *)
Definition grown (s : Store) (r : ref) (s' : Store) : Prop :=
  is_Some (s' !! r) /\ keeps_content s s' /\ extends s s'
  /\ (well_formed s -> well_formed s').

(** Every part of the list carries the force marker. *)
Definition all_forced (parts : list string) : bool :=
  forallb (fun i_part => PyStr.endswith i_part "+") parts.

(** Nothing of [s] is lost or rewritten in [s']: every element is still in
    its place with its tag, text and attributes, and its list of children
    has only gained, at its end, elements that [s] did not have. *)
Definition preserved (s s' : Store) : Prop :=
  length s <= length s'
  /\ forall i e, s !! i = Some e ->
       exists e', s' !! i = Some e' /\ tag e' = tag e /\ text e' = text e
                  /\ attrib e' = attrib e
                  /\ exists extra, children e' = children e ++ extra
                                   /\ forall d, d ∈ extra -> length s <= d < length s'.

(** The store is a forest laid out in creation order: children designate
    elements made after their parent, no element is listed twice by one
    parent, and no element is listed by two parents. *)
Definition forest (s : Store) : Prop :=
  (forall i e d, s !! i = Some e -> d ∈ children e -> i < d < length s)
  /\ (forall i e, s !! i = Some e -> NoDup (children e))
  /\ (forall i j ei ej d,
        s !! i = Some ei -> s !! j = Some ej ->
        d ∈ children ei -> d ∈ children ej -> i = j).

(** The tag that a part gives to the element it creates: the part, less
    its force marker. *)
Definition part_tag (i_part : string) : string :=
  if PyStr.endswith i_part "+" then PyStr.drop_last i_part else i_part.

(** A tree to try the statements on: [root] with the children [alpha]
    (text [one]) and [alpha] again, the first [alpha] holding [delta]. *)
Definition sample : Store :=
  [ mkElement "root" [1; 2] ∅ None;
    mkElement "alpha" [3] ∅ (Some "one");
    mkElement "alpha" [] ∅ None;
    mkElement "delta" [] ∅ None ].

Definition sample_root : XmlFactory := mkXmlFactory 0.

(** An ElementPath to try the statements on: it rejects whatever it is
    asked. *)
Definition rejecting : ElementPath := fun _ _ _ => Raise SyntaxError.

(** A rendering to try [Print] on: the tag of the element alone. *)
Definition tag_only : PrettyPrinter :=
  fun s r => match s !! r with Some e => tag e | None => "" end.

(** ** Strings *)

Example split_example :
  PyStr.split "/" "alpha/bravo//c+" = ["alpha"; "bravo"; ""; "c+"].
Proof. reflexivity. Qed.

Example rsplit_example : PyStr.rsplit "@" "a/b@x@y" = ["a/b"; "x"; "y"].
Proof. reflexivity. Qed.

Example drop_last_example : PyStr.drop_last "item+" = "item".
Proof. reflexivity. Qed.

Lemma split_nonempty sep s : PyStr.split sep s <> [].
Proof.
  destruct s as [|a s]; simpl; [discriminate|].
  destruct (Ascii.eqb a sep); [discriminate|].
  destruct (PyStr.split sep s); discriminate.
Qed.

Lemma split_no_separator sep s :
  PyStr.contains sep s = false -> PyStr.split sep s = [s].
Proof.
  induction s as [|a s IH]; simpl; [reflexivity|].
  destruct (Ascii.eqb a sep); [discriminate|].
  intros H. rewrite (IH H). reflexivity.
Qed.

(** ** The collaborator's operations, as equations *)

Lemma has_tag_eqb s c ec t :
  s !! c = Some ec -> (String.eqb (tag ec) t = true <-> has_tag s c t).
Proof.
  intros Hc. rewrite String.eqb_eq. split.
  - intros Ht. exists ec. split; assumption.
  - intros (ec' & Hc' & Ht). congruence.
Qed.

Lemma has_tag_dangling s c t : s !! c = None -> ~ has_tag s c t.
Proof. intros Hc (ec & Hc' & _). congruence. Qed.

Lemma first_tagged_Some s t cs c :
  ElementTree.first_tagged s t cs = Some c <-> first_match s t cs c.
Proof.
  split.
  - induction cs as [|d cs IH]; simpl; [discriminate|].
    destruct (s !! d) as [ed|] eqn:Hd.
    + destruct (String.eqb (tag ed) t) eqn:Ht.
      * intros [= ->]. exists [], cs. split; [reflexivity|].
        split; [apply (has_tag_eqb _ _ _ _ Hd); assumption|].
        intros x Hx. inversion Hx.
      * intros Hf. destruct (IH Hf) as (pre & post & -> & Hc & Hpre).
        exists (d :: pre), post. split; [reflexivity|]. split; [assumption|].
        intros x Hx. apply elem_of_cons in Hx as [->|Hx]; [|auto].
        intros Hx. apply (has_tag_eqb _ _ _ _ Hd) in Hx. congruence.
    + intros Hf. destruct (IH Hf) as (pre & post & -> & Hc & Hpre).
      exists (d :: pre), post. split; [reflexivity|]. split; [assumption|].
      intros x Hx. apply elem_of_cons in Hx as [->|Hx]; [|auto].
      apply has_tag_dangling. assumption.
  - intros (pre & post & -> & Hc & Hpre).
    induction pre as [|d pre IH]; simpl.
    + destruct Hc as (ec & -> & Ht). apply String.eqb_eq in Ht. rewrite Ht. reflexivity.
    + assert (Hd : ~ has_tag s d t) by (apply Hpre; left).
      assert (IH' : ElementTree.first_tagged s t (pre ++ c :: post) = Some c).
      { apply IH. intros x Hx. apply Hpre. right. assumption. }
      destruct (s !! d) as [ed|] eqn:Hed; [|assumption].
      destruct (String.eqb (tag ed) t) eqn:Ht; [|assumption].
      exfalso. apply Hd. apply (has_tag_eqb _ _ _ _ Hed). assumption.
Qed.

Lemma first_tagged_None s t cs :
  ElementTree.first_tagged s t cs = None <-> (forall d, d ∈ cs -> ~ has_tag s d t).
Proof.
  split.
  - induction cs as [|d cs IH]; simpl; intros Hf x Hx; [inversion Hx|].
    destruct (s !! d) as [ed|] eqn:Hd.
    + destruct (String.eqb (tag ed) t) eqn:Ht; [discriminate|].
      apply elem_of_cons in Hx as [->|Hx]; [|auto].
      intros Hx. apply (has_tag_eqb _ _ _ _ Hd) in Hx. congruence.
    + apply elem_of_cons in Hx as [->|Hx]; [|auto].
      apply has_tag_dangling. assumption.
  - intros Hall. destruct (ElementTree.first_tagged s t cs) as [c|] eqn:Hf; [|reflexivity].
    apply first_tagged_Some in Hf as (pre & post & -> & Hc & _).
    exfalso. apply (Hall c); [|assumption].
    apply elem_of_app. right. left.
Qed.

Lemma SubElement_eq s parent e t :
  s !! parent = Some e ->
  ElementTree.SubElement parent t s = (Ok (length s), store_with_child s parent e t).
Proof.
  intros He. unfold ElementTree.SubElement, bind, ElementTree.new_Element,
    ElementTree.append, ret, store_with_child.
  rewrite (lookup_app_l_Some _ _ _ _ He). reflexivity.
Qed.

Lemma find_tag_name xp s parent e t :
  s !! parent = Some e ->
  PyStr.is_tag_name t = true ->
  ElementTree.find xp parent t s
  = (Ok (ElementTree.first_tagged s t (children e)), s).
Proof. intros He Ht. unfold ElementTree.find. rewrite He, Ht. reflexivity. Qed.

Lemma first_element_valid s cs c :
  ElementTree.first_element s cs = Some c -> is_Some (s !! c).
Proof.
  induction cs as [|d cs IH]; simpl; [discriminate|].
  destruct (s !! d) as [ed|] eqn:Hd; [|exact IH].
  intros [= <-]. rewrite Hd. eauto.
Qed.

Lemma store_with_child_length s parent e t :
  length (store_with_child s parent e t) = S (length s).
Proof.
  unfold store_with_child. rewrite length_insert, length_app. simpl. lia.
Qed.

Lemma store_with_child_parent s parent e t :
  s !! parent = Some e ->
  store_with_child s parent e t !! parent
  = Some (with_children e (children e ++ [length s])).
Proof.
  intros He. unfold store_with_child. apply list_lookup_insert_eq.
  rewrite length_app. apply lookup_lt_Some in He. simpl. lia.
Qed.

Lemma store_with_child_fresh s parent e t :
  s !! parent = Some e ->
  store_with_child s parent e t !! length s = Some (mkElement t [] ∅ None).
Proof.
  intros He. unfold store_with_child.
  assert (parent < length s) by (eapply lookup_lt_Some; eassumption).
  rewrite list_lookup_insert_ne by lia.
  rewrite lookup_app_r by lia. rewrite Nat.sub_diag. reflexivity.
Qed.

Lemma store_with_child_other s parent e t i :
  i <> parent -> i <> length s ->
  store_with_child s parent e t !! i = s !! i.
Proof.
  intros Hp Hn. unfold store_with_child.
  rewrite list_lookup_insert_ne by congruence.
  destruct (decide (i < length s)) as [Hlt|Hge].
  - apply lookup_app_l. assumption.
  - rewrite (lookup_ge_None_2 s) by lia.
    apply lookup_ge_None_2. rewrite length_app. simpl. lia.
Qed.

Lemma has_tag_store_with_child s parent e t' d t :
  s !! parent = Some e -> d <> length s ->
  has_tag (store_with_child s parent e t') d t <-> has_tag s d t.
Proof.
  intros He Hd. unfold has_tag.
  destruct (decide (d = parent)) as [->|Hp].
  - rewrite (store_with_child_parent _ _ _ _ He), He. split.
    + intros (ec & [= <-] & Ht). exists e. split; [reflexivity|exact Ht].
    + intros (ec & [= <-] & Ht). eexists. split; [reflexivity|exact Ht].
  - rewrite store_with_child_other by assumption. reflexivity.
Qed.

Lemma has_tag_fresh s parent e t :
  s !! parent = Some e ->
  has_tag (store_with_child s parent e t) (length s) t.
Proof.
  intros He. eexists. split; [apply store_with_child_fresh; eassumption|reflexivity].
Qed.

(** A reference appended last is found when nothing before it, other than
    itself, carries the tag. *)
Lemma first_tagged_appended s t cs n :
  has_tag s n t ->
  (forall d, d ∈ cs -> d <> n -> ~ has_tag s d t) ->
  ElementTree.first_tagged s t (cs ++ [n]) = Some n.
Proof.
  intros Hn Hcs. induction cs as [|d cs IH]; simpl.
  - destruct Hn as (en & -> & Ht). apply String.eqb_eq in Ht. rewrite Ht. reflexivity.
  - assert (IH' : ElementTree.first_tagged s t (cs ++ [n]) = Some n).
    { apply IH. intros x Hx. apply Hcs. right. assumption. }
    destruct (s !! d) as [ed|] eqn:Hd; [|assumption].
    destruct (String.eqb (tag ed) t) eqn:Ht; [|assumption].
    destruct (decide (d = n)) as [->|Hne]; [reflexivity|].
    exfalso. apply (Hcs d); [left|assumption|].
    apply (has_tag_eqb _ _ _ _ Hd). assumption.
Qed.

Lemma first_tagged_valid s t cs c :
  ElementTree.first_tagged s t cs = Some c -> is_Some (s !! c).
Proof.
  intros Hc. apply first_tagged_Some in Hc as (_ & _ & _ & (ec & Hec & _) & _).
  rewrite Hec. eauto.
Qed.

(** [find] only reads the store, and what it answers is an element. *)
Lemma find_outcome xp parent path s :
  exists res, ElementTree.find xp parent path s = (res, s)
              /\ forall r, res = Ok (Some r) -> is_Some (s !! r).
Proof.
  unfold ElementTree.find. destruct (s !! parent) as [e|] eqn:He.
  2: { eexists. split; [reflexivity|]. discriminate. }
  destruct (PyStr.is_tag_name path).
  { eexists. split; [reflexivity|]. intros r [= Hr].
    eapply first_tagged_valid. exact Hr. }
  destruct (String.eqb path ".").
  { eexists. split; [reflexivity|]. intros r [= <-]. rewrite He. eauto. }
  destruct (String.eqb path "*").
  { eexists. split; [reflexivity|]. intros r [= Hr].
    eapply first_element_valid. exact Hr. }
  destruct (String.eqb path "..").
  { eexists. split; [reflexivity|]. discriminate. }
  destruct (xp s parent path) as [[r|]|x].
  - destruct (s !! r) as [er|] eqn:Hr.
    + eexists. split; [reflexivity|]. intros r' [= <-]. rewrite Hr. eauto.
    + eexists. split; [reflexivity|]. discriminate.
  - eexists. split; [reflexivity|]. discriminate.
  - eexists. split; [reflexivity|]. discriminate.
Qed.

(** The three expressions that are read here.  None of them consults the
    rest of ElementPath. *)
Lemma find_dot xp s parent e :
  s !! parent = Some e -> ElementTree.find xp parent "." s = (Ok (Some parent), s).
Proof. intros He. unfold ElementTree.find. rewrite He. reflexivity. Qed.

Lemma find_star xp s parent e :
  s !! parent = Some e ->
  ElementTree.find xp parent "*" s = (Ok (ElementTree.first_element s (children e)), s).
Proof. intros He. unfold ElementTree.find. rewrite He. reflexivity. Qed.

Lemma find_dotdot xp s parent : ElementTree.find xp parent ".." s = (Ok None, s).
Proof. unfold ElementTree.find. destruct (s !! parent); reflexivity. Qed.

Example star_dot_dotdot_any_elementpath (xp : ElementPath) :
  Factory._ObtainElement xp sample_root "*" sample = (Ok 1, sample)
  /\ Factory._ObtainElement xp sample_root "." sample = (Ok 0, sample)
  /\ fst (Factory._ObtainElement xp sample_root ".." sample) = Ok 4.
Proof. repeat split. Qed.

(** ** Plain tag names *)

Example tag_name_examples :
  PyStr.is_tag_name "alpha" = true /\ PyStr.is_tag_name "item-2_b" = true
  /\ PyStr.is_tag_name "" = false /\ PyStr.is_tag_name "item+" = false
  /\ PyStr.is_tag_name "*" = false /\ PyStr.is_tag_name "." = false
  /\ PyStr.is_tag_name ".." = false /\ PyStr.is_tag_name "a[1]" = false
  /\ PyStr.is_tag_name "a b" = false /\ PyStr.is_tag_name "ns:a" = false.
Proof. repeat split. Qed.

Lemma name_char_differs a c :
  PyStr.is_name_char a = true -> PyStr.is_name_char c = false ->
  Ascii.eqb a c = false.
Proof.
  intros Ha Hc. destruct (Ascii.eqb a c) eqn:Heq; [|reflexivity].
  apply Ascii.eqb_eq in Heq. congruence.
Qed.

Lemma name_chars_contains c s :
  PyStr.is_name_char c = false -> PyStr.name_chars s = true ->
  PyStr.contains c s = false.
Proof.
  intros Hc. induction s as [|a s IH]; simpl; [reflexivity|].
  intros Hs. apply andb_prop in Hs as [Ha Hs].
  rewrite (name_char_differs a c Ha Hc). exact (IH Hs).
Qed.

Lemma name_chars_endswith c s :
  PyStr.is_name_char c = false -> PyStr.name_chars s = true ->
  PyStr.endswith s c = false.
Proof.
  intros Hc. induction s as [|a s IH]; [reflexivity|].
  intros Hs. simpl in Hs. apply andb_prop in Hs as [Ha Hs].
  destruct s as [|b s]; [exact (name_char_differs a c Ha Hc)|].
  exact (IH Hs).
Qed.

(** A plain tag name is not empty, holds no slash and no marker. *)
Lemma tag_name_plain t :
  PyStr.is_tag_name t = true ->
  t <> "" /\ PyStr.contains "/" t = false /\ PyStr.endswith t "+" = false
  /\ PyStr.contains "@" t = false.
Proof.
  intros Ht. destruct t as [|a t]; [discriminate|]. unfold PyStr.is_tag_name in Ht.
  split; [discriminate|].
  split; [apply name_chars_contains; [reflexivity|exact Ht]|].
  split; [apply name_chars_endswith; [reflexivity|exact Ht]|].
  apply name_chars_contains; [reflexivity|exact Ht].
Qed.

Lemma tag_name_safe i_part : PyStr.is_tag_name i_part = true -> safe_part i_part = true.
Proof. intros H. unfold safe_part. rewrite H. apply orb_true_r. Qed.


(** ** One turn of the loop *)

Lemma obtain_part_forced xp s parent e i_part :
  s !! parent = Some e ->
  PyStr.endswith i_part "+" = true ->
  Factory.obtain_part xp parent i_part s
  = (Ok (length s), store_with_child s parent e (PyStr.drop_last i_part)).
Proof.
  intros He Hf. unfold Factory.obtain_part. rewrite Hf.
  apply SubElement_eq. assumption.
Qed.

Lemma obtain_part_found xp s parent e i_part c :
  s !! parent = Some e ->
  PyStr.is_tag_name i_part = true ->
  ElementTree.first_tagged s i_part (children e) = Some c ->
  Factory.obtain_part xp parent i_part s = (Ok c, s).
Proof.
  intros He Ht Hc. unfold Factory.obtain_part, bind.
  destruct (tag_name_plain _ Ht) as (_ & _ & -> & _).
  rewrite (find_tag_name _ _ _ _ _ He Ht), Hc. reflexivity.
Qed.

Lemma obtain_part_missing xp s parent e i_part :
  s !! parent = Some e ->
  PyStr.is_tag_name i_part = true ->
  ElementTree.first_tagged s i_part (children e) = None ->
  Factory.obtain_part xp parent i_part s
  = (Ok (length s), store_with_child s parent e i_part).
Proof.
  intros He Ht Hc. unfold Factory.obtain_part, bind.
  destruct (tag_name_plain _ Ht) as (_ & _ & -> & _).
  rewrite (find_tag_name _ _ _ _ _ He Ht), Hc. apply SubElement_eq. assumption.
Qed.

Lemma obtain_parts_cons xp s parent i_part rest r s' :
  Factory.obtain_part xp parent i_part s = (Ok r, s') ->
  Factory.obtain_parts xp (i_part :: rest) parent s = Factory.obtain_parts xp rest r s'.
Proof. intros H. simpl. unfold bind. rewrite H. reflexivity. Qed.

Lemma obtain_parts_cons_raise xp s parent i_part rest x s' :
  Factory.obtain_part xp parent i_part s = (Raise x, s') ->
  Factory.obtain_parts xp (i_part :: rest) parent s = (Raise x, s').
Proof. intros H. simpl. unfold bind. rewrite H. reflexivity. Qed.

Lemma obtain_parts_single xp s parent i_part :
  Factory.obtain_parts xp [i_part] parent s = Factory.obtain_part xp parent i_part s.
Proof.
  simpl. unfold bind, ret.
  destruct (Factory.obtain_part xp parent i_part s) as [[r|x] s']; reflexivity.
Qed.

Lemma ObtainElement_single xp self t s :
  t <> "" -> PyStr.contains "/" t = false ->
  Factory._ObtainElement xp self t s = Factory.obtain_part xp (root self) t s.
Proof.
  intros Hne Hsl. unfold Factory._ObtainElement.
  apply String.eqb_neq in Hne. rewrite Hne.
  rewrite (split_no_separator _ _ Hsl). apply obtain_parts_single.
Qed.

Lemma ObtainElement_tag_name xp self t s :
  PyStr.is_tag_name t = true ->
  Factory._ObtainElement xp self t s = Factory.obtain_part xp (root self) t s.
Proof.
  intros Ht. destruct (tag_name_plain _ Ht) as (Hne & Hsl & _).
  apply ObtainElement_single; assumption.
Qed.

(** ** Paths as lists of parts *)

Lemma split_app sep p q :
  PyStr.split sep (p ++ String sep q)%string = PyStr.split sep p ++ PyStr.split sep q.
Proof.
  induction p as [|a p IH].
  - change ("" ++ String sep q)%string with (String sep q).
    simpl. rewrite Ascii.eqb_refl. reflexivity.
  - change (String a p ++ String sep q)%string with (String a (p ++ String sep q)%string).
    simpl. rewrite IH. destruct (Ascii.eqb a sep); [reflexivity|].
    destruct (PyStr.split sep p) as [|x l] eqn:Hp; [|reflexivity].
    exfalso. exact (split_nonempty _ _ Hp).
Qed.

Lemma contains_app c p q :
  PyStr.contains c (p ++ q)%string = PyStr.contains c p || PyStr.contains c q.
Proof.
  induction p as [|a p IH]; [reflexivity|].
  change (String a p ++ q)%string with (String a (p ++ q)%string).
  simpl. destruct (Ascii.eqb a c); [reflexivity|exact IH].
Qed.

Lemma app_not_empty p q : p <> "" -> (p ++ q)%string <> "".
Proof. destruct p; [congruence|discriminate]. Qed.

Lemma obtain_parts_app xp l1 : forall l2 parent s,
  Factory.obtain_parts xp (l1 ++ l2) parent s
  = bind (Factory.obtain_parts xp l1 parent) (Factory.obtain_parts xp l2) s.
Proof.
  induction l1 as [|i_part l1 IH]; intros l2 parent s; [reflexivity|].
  simpl. unfold bind.
  destruct (Factory.obtain_part xp parent i_part s) as [[r|x] s']; [|reflexivity].
  rewrite IH. reflexivity.
Qed.

Lemma ObtainElement_parts xp self name s :
  name <> "" ->
  Factory._ObtainElement xp self name s
  = Factory.obtain_parts xp (PyStr.split "/" name) (root self) s.
Proof.
  intros Hne. unfold Factory._ObtainElement.
  apply String.eqb_neq in Hne. rewrite Hne. reflexivity.
Qed.

Lemma ObtainElement_slash xp self p q s :
  p <> "" -> q <> "" ->
  Factory._ObtainElement xp self (p ++ "/" ++ q)%string s
  = bind (Factory._ObtainElement xp self p)
         (fun r => Factory._ObtainElement xp (mkXmlFactory r) q) s.
Proof.
  intros Hp Hq.
  rewrite ObtainElement_parts by (apply app_not_empty; exact Hp).
  change ("/" ++ q)%string with (String "/" q).
  rewrite split_app, obtain_parts_app. unfold bind.
  rewrite (ObtainElement_parts xp self p) by exact Hp.
  destruct (Factory.obtain_parts xp (PyStr.split "/" p) (root self) s) as [[r|x] s'];
    [|reflexivity].
  rewrite ObtainElement_parts by exact Hq. reflexivity.
Qed.

Lemma getitem_eq xp self name s :
  PyStr.contains "@" name = false ->
  Factory.__getitem__ xp self name s
  = match Factory._ObtainElement xp self name s with
    | (Ok r, s') => (Ok (mkXmlFactory r), s')
    | (Raise x, s') => (Raise x, s')
    end.
Proof.
  intros Hat. unfold Factory.__getitem__, bind. rewrite Hat.
  destruct (Factory._ObtainElement xp self name s) as [[r|x] s']; reflexivity.
Qed.


(** C1, as it stands, fails on parts that ElementPath reads as an
    expression.  Under a parent whose two children are tagged [alpha], the
    part [*] has no force marker and no child carries the tag [*], yet no
    child is created: the first child is returned.  The part [.] returns
    the parent itself. *)
Lemma star_and_dot_counterexample :
  PyStr.endswith "*" "+" = false
  /\ (forall d, d ∈ [1; 2] -> ~ has_tag sample d "*")
  /\ Factory._ObtainElement rejecting sample_root "*" sample = (Ok 1, sample)
  /\ sample !! 1 = Some (mkElement "alpha" [3] ∅ (Some "one"))
  /\ PyStr.endswith "." "+" = false
  /\ Factory._ObtainElement rejecting sample_root "." sample = (Ok 0, sample).
Proof.
  split; [reflexivity|]. split; [|repeat split].
  intros d Hd (ed & Hed & Ht).
  repeat (apply elem_of_cons in Hd as [->|Hd];
          [simpl in Hed; injection Hed as <-; discriminate|]).
  inversion Hd.
Qed.

(** C1, amended.  A part that is a plain tag name (not empty; letters,
    digits, [_] and [-] only, hence no force marker) is looked up among the
    direct children of the current parent by exact tag.  When a child
    carries that tag, the first such child is the result and the store is
    left as it was; when none does, a fresh element with that tag is
    appended to the parent's children and is the result.  Either way the
    result is the parent for the part that follows, and the part itself is
    resolved from the element that the parts before it led to. *)
Theorem tag_part_reuses_or_creates
    (xp : ElementPath) (self : XmlFactory) (s : Store) (e : Element) (t : string) :
  s !! root self = Some e ->
  PyStr.is_tag_name t = true ->
  (forall c, first_match s t (children e) c ->
     Factory._ObtainElement xp self t s = (Ok c, s)
     /\ forall q, q <> "" ->
          Factory._ObtainElement xp self (t ++ "/" ++ q)%string s
          = Factory._ObtainElement xp (mkXmlFactory c) q s)
  /\ ((forall d, d ∈ children e -> ~ has_tag s d t) ->
      let s' := store_with_child s (root self) e t in
      Factory._ObtainElement xp self t s = (Ok (length s), s')
      /\ s' !! length s = Some (mkElement t [] ∅ None)
      /\ s' !! root self = Some (with_children e (children e ++ [length s]))
      /\ (forall i, i <> root self -> i < length s -> s' !! i = s !! i)
      /\ forall q, q <> "" ->
           Factory._ObtainElement xp self (t ++ "/" ++ q)%string s
           = Factory._ObtainElement xp (mkXmlFactory (length s)) q s')
  /\ ((exists c, first_match s t (children e) c)
      \/ (forall d, d ∈ children e -> ~ has_tag s d t))
  /\ (forall p, p <> "" ->
        Factory._ObtainElement xp self (p ++ "/" ++ t)%string s
        = bind (Factory._ObtainElement xp self p)
               (fun parent => Factory._ObtainElement xp (mkXmlFactory parent) t) s).
Proof.
  intros He Ht. destruct (tag_name_plain _ Ht) as (Hne & _).
  assert (Hnext : forall r s' q, q <> "" ->
    Factory._ObtainElement xp self t s = (Ok r, s') ->
    Factory._ObtainElement xp self (t ++ "/" ++ q)%string s
    = Factory._ObtainElement xp (mkXmlFactory r) q s').
  { intros r s' q Hq Hres. rewrite ObtainElement_slash by assumption.
    unfold bind. rewrite Hres. reflexivity. }
  rewrite (ObtainElement_tag_name _ _ _ _ Ht) in *.
  split; [|split; [|split]].
  - intros c Hc. apply first_tagged_Some in Hc.
    pose proof (obtain_part_found xp _ _ _ _ _ He Ht Hc) as Hstep.
    split; [exact Hstep|]. intros q Hq. apply Hnext; assumption.
  - intros Hnone s'. apply first_tagged_None in Hnone.
    pose proof (obtain_part_missing xp _ _ _ _ He Ht Hnone) as Hstep.
    split; [exact Hstep|].
    split; [apply store_with_child_fresh; exact He|].
    split; [apply store_with_child_parent; exact He|].
    split; [|intros q Hq; apply Hnext; assumption].
    intros i Hi Hlt. apply store_with_child_other; [assumption|lia].
  - destruct (ElementTree.first_tagged s t (children e)) as [c|] eqn:Hc.
    + left. exists c. apply first_tagged_Some. assumption.
    + right. apply first_tagged_None. assumption.
  - intros p Hp. apply ObtainElement_slash; assumption.
Qed.

Lemma tag_part_reuses_or_creates_witness :
  sample !! 0 = Some (mkElement "root" [1; 2] ∅ None)
  /\ PyStr.is_tag_name "alpha" = true
  /\ (forall c, first_match sample "alpha" [1; 2] c ->
        Factory._ObtainElement rejecting sample_root "alpha" sample = (Ok c, sample)
        /\ forall q, q <> "" ->
             Factory._ObtainElement rejecting sample_root ("alpha" ++ "/" ++ q)%string sample
             = Factory._ObtainElement rejecting (mkXmlFactory c) q sample).
Proof.
  split; [reflexivity|]. split; [reflexivity|].
  exact (proj1 (tag_part_reuses_or_creates rejecting sample_root sample
                  (mkElement "root" [1; 2] ∅ None) "alpha" eq_refl eq_refl)).
Defined.

(** ** The force marker *)

Lemma endswith_marker t : PyStr.endswith (t ++ "+")%string "+" = true.
Proof.
  induction t as [|a t IH]; [reflexivity|].
  change (String a t ++ "+")%string with (String a (t ++ "+")%string).
  simpl. destruct (t ++ "+")%string eqn:Ht; [|exact IH].
  destruct t; discriminate.
Qed.

Lemma drop_last_marker t : PyStr.drop_last (t ++ "+")%string = t.
Proof.
  induction t as [|a t IH]; [reflexivity|].
  change (String a t ++ "+")%string with (String a (t ++ "+")%string).
  simpl. destruct (t ++ "+")%string eqn:Ht.
  - destruct t; discriminate.
  - rewrite IH. reflexivity.
Qed.

Lemma contains_slash_marker t :
  PyStr.contains "/" (t ++ "+")%string = PyStr.contains "/" t.
Proof.
  induction t as [|a t IH]; [reflexivity|].
  change (String a t ++ "+")%string with (String a (t ++ "+")%string).
  simpl. rewrite IH. reflexivity.
Qed.

Lemma marker_not_empty t : (t ++ "+")%string <> "".
Proof. destruct t; discriminate. Qed.






(** C3, as it stands, fails on [..]: it is one part, not empty and
    without force marker, but [find] never answers it, so that each
    resolution makes an element of its own. *)
Lemma dotdot_twice_counterexample :
  ".." <> ""
  /\ PyStr.contains "/" ".." = false
  /\ PyStr.endswith ".." "+" = false
  /\ exists s1 s2,
       Factory._ObtainElement rejecting sample_root ".." sample = (Ok 4, s1)
       /\ Factory._ObtainElement rejecting sample_root ".." s1 = (Ok 5, s2)
       /\ 4 <> 5
       /\ length s2 = S (length s1).
Proof.
  split; [discriminate|]. split; [reflexivity|]. split; [reflexivity|].
  eexists _, _. split; [reflexivity|]. split; [reflexivity|].
  split; [discriminate|reflexivity].
Qed.

(** C3, amended.  For a plain tag name [t] (not empty; letters, digits,
    [_] and [-] only), resolving the path [t] twice in a row from one
    parent returns the same element both times: the first resolution finds
    or creates the child, the second finds that very child and creates
    nothing. *)
Theorem plain_tag_resolved_twice
    (xp : ElementPath) (s : Store) (self : XmlFactory) (e : Element) (t : string) :
  s !! root self = Some e ->
  PyStr.is_tag_name t = true ->
  exists r s1 e1,
    Factory._ObtainElement xp self t s = (Ok r, s1)
    /\ Factory._ObtainElement xp self t s1 = (Ok r, s1)
    /\ has_tag s1 r t
    /\ s1 !! root self = Some e1
    /\ r ∈ children e1.
Proof.
  intros He Ht.
  rewrite !(ObtainElement_tag_name xp) by exact Ht.
  destruct (ElementTree.first_tagged s t (children e)) as [c|] eqn:Hc.
  - exists c, s, e.
    rewrite (obtain_part_found xp _ _ _ _ _ He Ht Hc).
    split; [reflexivity|].
    rewrite (ObtainElement_tag_name xp) by exact Ht.
    split; [apply (obtain_part_found xp _ _ _ _ _ He Ht Hc)|].
    apply first_tagged_Some in Hc as (pre & post & Hcs & Htag & _).
    split; [exact Htag|]. split; [exact He|].
    rewrite Hcs. apply elem_of_app. right. left.
  - set (n := length s).
    set (s1 := store_with_child s (root self) e t).
    set (e1 := with_children e (children e ++ [n])).
    assert (He1 : s1 !! root self = Some e1)
      by (apply store_with_child_parent; exact He).
    exists n, s1, e1.
    rewrite (obtain_part_missing xp _ _ _ _ He Ht Hc).
    split; [reflexivity|].
    rewrite (ObtainElement_tag_name xp) by exact Ht.
    assert (Hn : has_tag s1 n t) by (apply has_tag_fresh; exact He).
    split.
    { apply (obtain_part_found xp _ _ _ _ _ He1 Ht). simpl.
      apply first_tagged_appended; [exact Hn|].
      intros d Hd Hdn Htag.
      apply (has_tag_store_with_child _ _ _ _ _ _ He Hdn) in Htag.
      revert Htag. apply (proj1 (first_tagged_None _ _ _) Hc). exact Hd. }
    split; [exact Hn|]. split; [exact He1|].
    simpl. apply elem_of_app. right. left.
Qed.

Lemma plain_tag_resolved_twice_witness :
  sample !! 0 = Some (mkElement "root" [1; 2] ∅ None)
  /\ PyStr.is_tag_name "bravo" = true
  /\ exists r s1 e1,
       Factory._ObtainElement rejecting sample_root "bravo" sample = (Ok r, s1)
       /\ Factory._ObtainElement rejecting sample_root "bravo" s1 = (Ok r, s1)
       /\ has_tag s1 r "bravo"
       /\ s1 !! 0 = Some e1
       /\ r ∈ children e1.
Proof.
  split; [reflexivity|]. split; [reflexivity|].
  apply (plain_tag_resolved_twice rejecting sample sample_root
           (mkElement "root" [1; 2] ∅ None) "bravo"); reflexivity.
Defined.

(** C4.  The empty path resolves to the element of the facade itself, not
    to a child of it, and the store is left as it was, so that no element
    is created; [Get] on the empty path hands back a facade on that same
    element. *)
Theorem empty_path_is_current_element
    (xp : ElementPath) (s : Store) (self : XmlFactory) :
  Factory._ObtainElement xp self "" s = (Ok (root self), s)
  /\ Factory.__getitem__ xp self "" s = (Ok self, s).
Proof. destruct self. split; reflexivity. Qed.


(** ** How resolution changes the store *)

Lemma keeps_content_refl s : keeps_content s s.
Proof. intros i e He. exists e. auto. Qed.

Lemma keeps_content_trans s1 s2 s3 :
  keeps_content s1 s2 -> keeps_content s2 s3 -> keeps_content s1 s3.
Proof.
  intros H12 H23 i e He.
  destruct (H12 i e He) as (e2 & He2 & Htag2 & Htext2 & Hattr2).
  destruct (H23 i e2 He2) as (e3 & He3 & Htag3 & Htext3 & Hattr3).
  exists e3. repeat split; congruence.
Qed.

Lemma extends_refl s : extends s s.
Proof.
  intros i e He. exists e. split; [assumption|]. split; [reflexivity|].
  exists []. rewrite app_nil_r. reflexivity.
Qed.

Lemma extends_trans s1 s2 s3 : extends s1 s2 -> extends s2 s3 -> extends s1 s3.
Proof.
  intros H12 H23 i e He.
  destruct (H12 i e He) as (e2 & He2 & Htag2 & x2 & Hch2).
  destruct (H23 i e2 He2) as (e3 & He3 & Htag3 & x3 & Hch3).
  exists e3. split; [assumption|]. split; [congruence|].
  exists (x2 ++ x3). rewrite Hch3, Hch2, app_assoc. reflexivity.
Qed.

Lemma extends_length s s' : extends s s' -> length s <= length s'.
Proof.
  intros Hext. destruct (decide (length s <= length s')) as [|Hlt]; [assumption|].
  exfalso. destruct (lookup_lt_is_Some_2 s (length s')) as [e He]; [lia|].
  destruct (Hext _ _ He) as (e' & He' & _).
  apply lookup_lt_Some in He'. lia.
Qed.

Section StoreWithChild.
Variables (s : Store) (parent : ref) (e : Element) (t : string).
Hypothesis He : s !! parent = Some e.

Lemma store_with_child_old i ei :
  s !! i = Some ei ->
  exists ei', store_with_child s parent e t !! i = Some ei'
              /\ tag ei' = tag ei /\ text ei' = text ei /\ attrib ei' = attrib ei
              /\ exists extra, children ei' = children ei ++ extra.
Proof.
  intros Hi. destruct (decide (i = parent)) as [->|Hp].
  - rewrite (store_with_child_parent _ _ _ _ He).
    rewrite He in Hi. injection Hi as <-.
    eexists. split; [reflexivity|]. simpl. repeat split. eexists. reflexivity.
  - apply lookup_lt_Some in Hi as Hlt.
    rewrite store_with_child_other by (assumption || lia).
    exists ei. split; [assumption|]. repeat split.
    exists []. rewrite app_nil_r. reflexivity.
Qed.

Lemma store_with_child_keeps : keeps_content s (store_with_child s parent e t).
Proof.
  intros i ei Hi.
  destruct (store_with_child_old i ei Hi) as (ei' & H1 & H2 & H3 & H4 & _).
  exists ei'. auto.
Qed.

Lemma store_with_child_extends : extends s (store_with_child s parent e t).
Proof.
  intros i ei Hi.
  destruct (store_with_child_old i ei Hi) as (ei' & H1 & H2 & _ & _ & H5).
  exists ei'. auto.
Qed.

Lemma store_with_child_well_formed :
  well_formed s -> well_formed (store_with_child s parent e t).
Proof.
  intros Hwf i ei d Hi Hd. rewrite store_with_child_length.
  destruct (decide (i = parent)) as [->|Hp].
  - rewrite (store_with_child_parent _ _ _ _ He) in Hi.
    injection Hi as <-. simpl in Hd.
    apply elem_of_app in Hd as [Hd|Hd].
    + specialize (Hwf _ _ _ He Hd). lia.
    + apply list_elem_of_singleton in Hd. lia.
  - destruct (decide (i = length s)) as [->|Hn].
    + rewrite (store_with_child_fresh _ _ _ _ He) in Hi.
      injection Hi as <-. simpl in Hd. inversion Hd.
    + rewrite store_with_child_other in Hi by assumption.
      specialize (Hwf _ _ _ Hi Hd). lia.
Qed.
End StoreWithChild.

Lemma grown_trans s1 r1 s2 r2 s3 : grown s1 r1 s2 -> grown s2 r2 s3 -> grown s1 r2 s3.
Proof.
  intros (_ & Hk1 & He1 & Hw1) (Hr & Hk2 & He2 & Hw2).
  split; [exact Hr|]. split; [eapply keeps_content_trans; eassumption|].
  split; [eapply extends_trans; eassumption|]. auto.
Qed.

Lemma grown_store_with_child s parent e t :
  s !! parent = Some e -> grown s (length s) (store_with_child s parent e t).
Proof.
  intros He. split; [rewrite (store_with_child_fresh _ _ _ _ He); eauto|].
  split; [apply store_with_child_keeps; exact He|].
  split; [apply store_with_child_extends; exact He|].
  apply store_with_child_well_formed; exact He.
Qed.

(** A turn of the loop raises and leaves the store alone, finds its result
    in the store as it is, or makes one element. *)
Lemma obtain_part_outcomes xp s parent e i_part :
  s !! parent = Some e ->
  (PyStr.endswith i_part "+" = false
   /\ exists x, Factory.obtain_part xp parent i_part s = (Raise x, s))
  \/ (PyStr.endswith i_part "+" = false
      /\ exists c, Factory.obtain_part xp parent i_part s = (Ok c, s)
                   /\ is_Some (s !! c))
  \/ (exists t, Factory.obtain_part xp parent i_part s
                = (Ok (length s), store_with_child s parent e t)).
Proof.
  intros He. destruct (PyStr.endswith i_part "+") eqn:Hf.
  - right. right. eexists. apply obtain_part_forced; assumption.
  - unfold Factory.obtain_part, bind. rewrite Hf.
    destruct (find_outcome xp parent i_part s) as (res & -> & Hvalid).
    destruct res as [[c|]|x].
    + right. left. split; [reflexivity|]. exists c. split; [reflexivity|].
      apply Hvalid. reflexivity.
    + right. right. eexists. apply SubElement_eq. exact He.
    + left. split; [reflexivity|]. exists x. reflexivity.
Qed.

(** On a part that carries the force marker or is a plain tag name, the
    turn returns: the first child with the tag, or a new element. *)
Lemma obtain_part_safe xp s parent e i_part :
  s !! parent = Some e ->
  safe_part i_part = true ->
  (PyStr.is_tag_name i_part = true
   /\ exists c, ElementTree.first_tagged s i_part (children e) = Some c
                /\ Factory.obtain_part xp parent i_part s = (Ok c, s))
  \/ Factory.obtain_part xp parent i_part s
     = (Ok (length s), store_with_child s parent e (part_tag i_part)).
Proof.
  intros He Hsafe. unfold safe_part, part_tag in *.
  destruct (PyStr.endswith i_part "+") eqn:Hf.
  - right. apply obtain_part_forced; assumption.
  - simpl in Hsafe.
    destruct (ElementTree.first_tagged s i_part (children e)) as [c|] eqn:Hc.
    + left. split; [exact Hsafe|]. exists c. split; [reflexivity|].
      eapply obtain_part_found; eassumption.
    + right. apply obtain_part_missing; assumption.
Qed.

Lemma obtain_part_grown xp s parent e i_part :
  s !! parent = Some e ->
  safe_part i_part = true ->
  exists r s', Factory.obtain_part xp parent i_part s = (Ok r, s') /\ grown s r s'.
Proof.
  intros He Hsafe.
  destruct (obtain_part_safe xp s parent e i_part He Hsafe)
    as [(_ & c & Hc & Hstep)|Hstep].
  - exists c, s. split; [exact Hstep|].
    split; [eapply first_tagged_valid; exact Hc|].
    split; [apply keeps_content_refl|]. split; [apply extends_refl|auto].
  - eexists _, _. split; [exact Hstep|]. apply grown_store_with_child. exact He.
Qed.

Lemma obtain_parts_grown xp parts : forall s parent,
  is_Some (s !! parent) ->
  forallb safe_part parts = true ->
  exists r s', Factory.obtain_parts xp parts parent s = (Ok r, s') /\ grown s r s'.
Proof.
  induction parts as [|i_part rest IH]; intros s parent Hp Hsafe.
  - exists parent, s. split; [reflexivity|]. split; [exact Hp|].
    split; [apply keeps_content_refl|]. split; [apply extends_refl|auto].
  - destruct Hp as [e He]. simpl in Hsafe. apply andb_prop in Hsafe as [Hs1 Hs2].
    destruct (obtain_part_grown xp s parent e i_part He Hs1) as (c & sa & Hstep & Hga).
    destruct (IH sa c (proj1 Hga) Hs2) as (r & s' & Hrest & Hgr).
    exists r, s'. split; [|eapply grown_trans; eassumption].
    rewrite (obtain_parts_cons _ _ _ _ _ _ _ Hstep). exact Hrest.
Qed.

Lemma ObtainElement_grown xp self name s :
  is_Some (s !! root self) ->
  safe_path name = true ->
  exists r s', Factory._ObtainElement xp self name s = (Ok r, s') /\ grown s r s'.
Proof.
  intros Hp Hsafe. unfold Factory._ObtainElement, safe_path in *.
  destruct (String.eqb name ""); [|apply obtain_parts_grown; assumption].
  exists (root self), s. split; [reflexivity|]. split; [exact Hp|].
  split; [apply keeps_content_refl|]. split; [apply extends_refl|auto].
Qed.

Lemma tag_path_safe name : tag_path name = true -> safe_path name = true.
Proof.
  unfold tag_path, safe_path. intros H. apply orb_true_iff. right.
  induction (PyStr.split "/" name) as [|p l IH]; [reflexivity|].
  simpl in *. apply andb_prop in H as [Hp Hl].
  rewrite (tag_name_safe _ Hp), (IH Hl). reflexivity.
Qed.

(** ** Resolving the same path again *)

Lemma first_tagged_stable s s' t cs extra c :
  (forall d, d ∈ cs -> d < length s) ->
  extends s s' ->
  ElementTree.first_tagged s t cs = Some c ->
  ElementTree.first_tagged s' t (cs ++ extra) = Some c.
Proof.
  intros Hcs Hext. induction cs as [|d cs IH]; simpl; [discriminate|].
  destruct (lookup_lt_is_Some_2 s d) as [ed Hd]; [apply Hcs; left|].
  destruct (Hext _ _ Hd) as (ed' & Hd' & Htag & _).
  rewrite Hd, Hd', Htag.
  destruct (String.eqb (tag ed) t); [trivial|].
  apply IH. intros x Hx. apply Hcs. right. exact Hx.
Qed.

(** After a turn on a plain tag name, the result is what [find] answers
    for that name in the new store. *)
Lemma obtain_part_then_found xp s parent e i_part r s' :
  s !! parent = Some e ->
  PyStr.is_tag_name i_part = true ->
  Factory.obtain_part xp parent i_part s = (Ok r, s') ->
  exists e', s' !! parent = Some e'
             /\ ElementTree.first_tagged s' i_part (children e') = Some r.
Proof.
  intros He Ht Hstep.
  destruct (ElementTree.first_tagged s i_part (children e)) as [c|] eqn:Hc.
  - rewrite (obtain_part_found xp _ _ _ _ _ He Ht Hc) in Hstep.
    injection Hstep as <- <-. exists e. split; assumption.
  - rewrite (obtain_part_missing xp _ _ _ _ He Ht Hc) in Hstep.
    injection Hstep as <- <-. eexists.
    split; [apply store_with_child_parent; exact He|]. simpl.
    apply first_tagged_appended; [apply has_tag_fresh; exact He|].
    intros d Hd Hdn Htag.
    apply (has_tag_store_with_child _ _ _ _ _ _ He Hdn) in Htag.
    revert Htag. apply (proj1 (first_tagged_None _ _ _) Hc). exact Hd.
Qed.

Lemma tag_names_safe parts :
  forallb PyStr.is_tag_name parts = true -> forallb safe_part parts = true.
Proof.
  induction parts as [|p l IH]; [reflexivity|]. simpl. intros H.
  apply andb_prop in H as [Hp Hl]. rewrite (tag_name_safe _ Hp), (IH Hl). reflexivity.
Qed.

Lemma obtain_parts_again xp parts : forall s parent r s1,
  forallb PyStr.is_tag_name parts = true ->
  well_formed s ->
  is_Some (s !! parent) ->
  Factory.obtain_parts xp parts parent s = (Ok r, s1) ->
  forall s2, extends s1 s2 -> Factory.obtain_parts xp parts parent s2 = (Ok r, s2).
Proof.
  induction parts as [|i_part rest IH]; intros s parent r s1 Hnf Hwf Hp Hres s2 Hext.
  - simpl in Hres. injection Hres as <- <-. reflexivity.
  - simpl in Hnf. apply andb_prop in Hnf as [Ht Hnf].
    destruct Hp as [e He].
    destruct (obtain_part_grown xp s parent e i_part He (tag_name_safe _ Ht))
      as (c & sa & Hstep & Hga).
    rewrite (obtain_parts_cons _ _ _ _ _ _ _ Hstep) in Hres.
    destruct Hga as (Hc & _ & _ & Hwfa). specialize (Hwfa Hwf).
    destruct (obtain_parts_grown xp rest sa c Hc (tag_names_safe _ Hnf))
      as (r' & s1' & Hres' & Hg1).
    rewrite Hres' in Hres. injection Hres as -> ->.
    destruct (obtain_part_then_found _ _ _ _ _ _ _ He Ht Hstep) as (ea & Hea & Hfirst).
    assert (Hext2 : extends sa s2)
      by (eapply extends_trans; [exact (proj1 (proj2 (proj2 Hg1)))|exact Hext]).
    destruct (Hext2 _ _ Hea) as (e2 & He2 & _ & extra & Hch).
    assert (Hagain : Factory.obtain_part xp parent i_part s2 = (Ok c, s2)).
    { apply (obtain_part_found xp _ _ _ _ _ He2 Ht). rewrite Hch.
      apply (first_tagged_stable sa); [|exact Hext2|exact Hfirst].
      intros d Hd. exact (Hwfa _ _ _ Hea Hd). }
    rewrite (obtain_parts_cons _ _ _ _ _ _ _ Hagain).
    apply (IH sa c r s1); assumption.
Qed.

Lemma ObtainElement_again xp self name s r s1 :
  tag_path name = true ->
  well_formed s ->
  is_Some (s !! root self) ->
  Factory._ObtainElement xp self name s = (Ok r, s1) ->
  forall s2, extends s1 s2 -> Factory._ObtainElement xp self name s2 = (Ok r, s2).
Proof.
  unfold Factory._ObtainElement, tag_path. intros Hnf Hwf Hp Hres s2 Hext.
  destruct (String.eqb name "").
  - injection Hres as <- <-. reflexivity.
  - eapply obtain_parts_again; eassumption.
Qed.

(** ** Counting and cutting at a separator *)

Lemma contains_count c s : PyStr.contains c s = false <-> PyStr.count c s = 0.
Proof.
  induction s as [|a s IH]; simpl; [tauto|].
  destruct (Ascii.eqb a c); simpl; [split; discriminate|exact IH].
Qed.

Lemma split_length sep s : length (PyStr.split sep s) = S (PyStr.count sep s).
Proof.
  induction s as [|a s IH]; simpl; [reflexivity|].
  destruct (Ascii.eqb a sep); simpl; [rewrite IH; reflexivity|].
  destruct (PyStr.split sep s); simpl in *; [discriminate|exact IH].
Qed.

Lemma split_once sep s :
  PyStr.count sep s = 1 ->
  exists a b, PyStr.split sep s = [a; b]
              /\ s = (a ++ String sep b)%string
              /\ PyStr.contains sep a = false
              /\ PyStr.contains sep b = false.
Proof.
  induction s as [|x s IH]; simpl; [discriminate|].
  destruct (Ascii.eqb x sep) eqn:Hx; simpl.
  - intros [= Hc]. apply contains_count in Hc. apply Ascii.eqb_eq in Hx as ->.
    exists ""%string, s. rewrite (split_no_separator _ _ Hc). auto.
  - intros Hc. destruct (IH Hc) as (a & b & Hs & -> & Ha & Hb).
    exists (String x a), b. rewrite Hs. simpl. rewrite Hx. auto.
Qed.


(** ** Whatever the outcome of a resolution *)

(** Whatever holds of the store and survives the creation of a child
    holds after the loop, whether it returns or raises; what it returns
    is an element. *)
Lemma obtain_parts_induct xp (P : Store -> Prop) :
  (forall s parent e t, s !! parent = Some e -> P s -> P (store_with_child s parent e t)) ->
  forall parts s parent,
    is_Some (s !! parent) -> P s ->
    exists res s', Factory.obtain_parts xp parts parent s = (res, s')
                   /\ P s' /\ forall r, res = Ok r -> is_Some (s' !! r).
Proof.
  intros Hstep parts. induction parts as [|i_part rest IH]; intros s parent Hp HP.
  - exists (Ok parent), s. split; [reflexivity|]. split; [exact HP|].
    intros r [= <-]. exact Hp.
  - destruct Hp as [e He].
    destruct (obtain_part_outcomes xp s parent e i_part He)
      as [(_ & x & Hc)|[(_ & c & Hc & Hvalid)|(t & Hc)]].
    + rewrite (obtain_parts_cons_raise _ _ _ _ _ _ _ Hc).
      exists (Raise x), s. split; [reflexivity|]. split; [exact HP|]. discriminate.
    + rewrite (obtain_parts_cons _ _ _ _ _ _ _ Hc). apply IH; assumption.
    + rewrite (obtain_parts_cons _ _ _ _ _ _ _ Hc).
      apply IH; [|apply Hstep; assumption].
      rewrite (store_with_child_fresh _ _ _ _ He). eauto.
Qed.

Lemma ObtainElement_induct xp (P : Store -> Prop) :
  (forall s parent e t, s !! parent = Some e -> P s -> P (store_with_child s parent e t)) ->
  forall self name s,
    is_Some (s !! root self) -> P s ->
    exists res s', Factory._ObtainElement xp self name s = (res, s')
                   /\ P s' /\ forall r, res = Ok r -> is_Some (s' !! r).
Proof.
  intros Hstep self name s Hp HP. unfold Factory._ObtainElement.
  destruct (String.eqb name ""); [|apply obtain_parts_induct; assumption].
  exists (Ok (root self)), s. split; [reflexivity|]. split; [exact HP|].
  intros r [= <-]. exact Hp.
Qed.

Lemma ObtainElement_valid xp self name s r s1 :
  is_Some (s !! root self) ->
  Factory._ObtainElement xp self name s = (Ok r, s1) ->
  is_Some (s1 !! r).
Proof.
  intros Hp Hres.
  destruct (ObtainElement_induct xp (fun _ => True)) with (self := self) (name := name) (s := s)
    as (res & s' & Hres' & _ & Hvalid); auto.
  rewrite Hres in Hres'. injection Hres' as <- <-. apply Hvalid. reflexivity.
Qed.

(** ** Assignments *)

Lemma set_text_eq s r e v :
  s !! r = Some e ->
  ElementTree.set_text r v s = (Ok tt, <[r := with_text e (Some v)]> s).
Proof. intros He. unfold ElementTree.set_text. rewrite He. reflexivity. Qed.

Lemma set_attrib_eq s r e a v :
  s !! r = Some e ->
  ElementTree.set_attrib r a v s
  = (Ok tt, <[r := with_attrib e (<[a := v]> (attrib e))]> s).
Proof. intros He. unfold ElementTree.set_attrib. rewrite He. reflexivity. Qed.

(** Replacing an element by one with the same tag and children. *)
Lemma extends_insert s r e e' :
  s !! r = Some e -> tag e' = tag e -> children e' = children e ->
  extends s (<[r := e']> s).
Proof.
  intros He Htag Hch i ei Hi. destruct (decide (i = r)) as [->|Hne].
  - rewrite He in Hi. injection Hi as <-. exists e'.
    split; [apply list_lookup_insert_eq; eapply lookup_lt_Some; eassumption|].
    split; [exact Htag|]. exists []. rewrite app_nil_r. exact Hch.
  - exists ei. rewrite list_lookup_insert_ne by congruence.
    split; [exact Hi|]. split; [reflexivity|].
    exists []. rewrite app_nil_r. reflexivity.
Qed.

Lemma setitem_text xp self name value s r s1 e1 :
  PyStr.contains "@" name = false ->
  Factory._ObtainElement xp self name s = (Ok r, s1) ->
  s1 !! r = Some e1 ->
  Factory.__setitem__ xp self name value s
  = (Ok (mkXmlFactory r), <[r := with_text e1 (Some (str value))]> s1).
Proof.
  intros Hat Hres He1. unfold Factory.__setitem__, bind. rewrite Hat, Hres.
  rewrite (set_text_eq _ _ _ _ He1). reflexivity.
Qed.

Lemma setitem_attrib xp self name value s element_name attr_name r s1 e1 :
  PyStr.contains "@" name = true ->
  PyStr.rsplit "@" name = [element_name; attr_name] ->
  Factory._ObtainElement xp self element_name s = (Ok r, s1) ->
  s1 !! r = Some e1 ->
  Factory.__setitem__ xp self name value s
  = (Ok (mkXmlFactory r),
     <[r := with_attrib e1 (<[attr_name := str value]> (attrib e1))]> s1).
Proof.
  intros Hat Hsplit Hres He1. unfold Factory.__setitem__, bind.
  rewrite Hat, Hsplit, Hres. rewrite (set_attrib_eq _ _ _ _ _ He1). reflexivity.
Qed.

Lemma setitem_unpack_fails xp self name value s :
  PyStr.contains "@" name = true ->
  length (PyStr.rsplit "@" name) <> 2 ->
  Factory.__setitem__ xp self name value s = (Raise ValueError, s).
Proof.
  intros Hat Hlen. unfold Factory.__setitem__. rewrite Hat.
  destruct (PyStr.rsplit "@" name) as [|a [|b [|c l]]]; try reflexivity.
  simpl in Hlen. congruence.
Qed.

Lemma setitem_text_raise xp self name value s x s1 :
  PyStr.contains "@" name = false ->
  Factory._ObtainElement xp self name s = (Raise x, s1) ->
  Factory.__setitem__ xp self name value s = (Raise x, s1).
Proof.
  intros Hat Hres. unfold Factory.__setitem__, bind. rewrite Hat, Hres. reflexivity.
Qed.

Lemma setitem_attrib_raise xp self name value s element_name attr_name x s1 :
  PyStr.contains "@" name = true ->
  PyStr.rsplit "@" name = [element_name; attr_name] ->
  Factory._ObtainElement xp self element_name s = (Raise x, s1) ->
  Factory.__setitem__ xp self name value s = (Raise x, s1).
Proof.
  intros Hat Hsplit Hres. unfold Factory.__setitem__, bind.
  rewrite Hat, Hsplit, Hres. reflexivity.
Qed.

(** C10.  A name with two or more [@] makes [Set] raise [ValueError], the
    error of unpacking more than two parts into two names; this happens
    before any path is resolved, and the tree is as it was. *)
Theorem setitem_several_markers_raises
    (xp : ElementPath) (self : XmlFactory) (name : string) (value : PyValue)
    (s : Store) :
  2 <= PyStr.count "@" name ->
  2 < length (PyStr.rsplit "@" name)
  /\ Factory.__setitem__ xp self name value s = (Raise ValueError, s).
Proof.
  intros Hc. unfold PyStr.rsplit at 1. rewrite split_length.
  split; [lia|]. apply setitem_unpack_fails.
  - destruct (PyStr.contains "@" name) eqn:Hat; [reflexivity|].
    apply contains_count in Hat. lia.
  - unfold PyStr.rsplit. rewrite split_length. lia.
Qed.

Lemma setitem_several_markers_raises_witness :
  2 <= PyStr.count "@" "alpha@bravo@cls"
  /\ 2 < length (PyStr.rsplit "@" "alpha@bravo@cls")
  /\ Factory.__setitem__ rejecting sample_root "alpha@bravo@cls" (PyInt 7) sample
     = (Raise ValueError, sample).
Proof.
  split; [simpl; lia|].
  apply (setitem_several_markers_raises rejecting sample_root "alpha@bravo@cls" (PyInt 7) sample).
  simpl. lia.
Defined.

Example str_int : str (PyInt 42) = "42".
Proof. reflexivity. Qed.

Lemma sample_well_formed : well_formed sample.
Proof.
  intros i e d Hi Hd. simpl.
  destruct i as [|[|[|[|i]]]]; simpl in Hi; try discriminate;
    injection Hi as <-; simpl in Hd;
    repeat (apply elem_of_cons in Hd as [->|Hd]; [lia|]); inversion Hd.
Qed.

Lemma rsplit_marker p a :
  PyStr.contains "@" p = false -> PyStr.contains "@" a = false ->
  PyStr.rsplit "@" (p ++ "@" ++ a)%string = [p; a]
  /\ PyStr.contains "@" (p ++ "@" ++ a)%string = true.
Proof.
  intros Hp Ha. split.
  - unfold PyStr.rsplit. change ("@" ++ a)%string with (String "@" a).
    rewrite split_app, !split_no_separator by assumption. reflexivity.
  - rewrite !contains_app. simpl. apply orb_true_r.
Qed.



(** C5, as it stands, fails on a name with two markers: nothing is split
    in two, no attribute is set and no facade is returned. *)
Lemma setitem_two_markers_counterexample :
  PyStr.contains "@" "alpha@bravo@cls" = true
  /\ Factory.__setitem__ rejecting sample_root "alpha@bravo@cls" (PyString "X") sample
     = (Raise ValueError, sample).
Proof. split; reflexivity. Qed.

(** C5, amended.  With a name that holds exactly one [@], [Set] cuts the
    name at it into an element path and an attribute name and resolves the
    element path; when the resolution returns an element, it sets that
    attribute of the element to the string form of the value and returns a
    facade on it; when the resolution raises, [Set] raises the same error.
    With a name that holds no [@], it resolves the whole name and, in the
    same way, sets the text of the resolved element and returns a facade on
    it.  The resolution returns whenever every part of the path is a plain
    tag name or carries the force marker. *)
Theorem setitem_attribute_or_text
    (xp : ElementPath) (self : XmlFactory) (name : string) (value : PyValue)
    (s : Store) (e : Element) :
  s !! root self = Some e ->
  (PyStr.count "@" name = 1 ->
   exists element_name attr_name,
     name = (element_name ++ "@" ++ attr_name)%string
     /\ PyStr.contains "@" element_name = false
     /\ PyStr.contains "@" attr_name = false
     /\ (forall r s1,
           Factory._ObtainElement xp self element_name s = (Ok r, s1) ->
           exists e1,
             s1 !! r = Some e1
             /\ Factory.__setitem__ xp self name value s
                = (Ok (mkXmlFactory r),
                   <[r := with_attrib e1 (<[attr_name := str value]> (attrib e1))]> s1))
     /\ (forall x s1,
           Factory._ObtainElement xp self element_name s = (Raise x, s1) ->
           Factory.__setitem__ xp self name value s = (Raise x, s1))
     /\ (safe_path element_name = true ->
         exists r s1, Factory._ObtainElement xp self element_name s = (Ok r, s1)))
  /\ (PyStr.contains "@" name = false ->
      (forall r s1,
         Factory._ObtainElement xp self name s = (Ok r, s1) ->
         exists e1,
           s1 !! r = Some e1
           /\ Factory.__setitem__ xp self name value s
              = (Ok (mkXmlFactory r), <[r := with_text e1 (Some (str value))]> s1))
      /\ (forall x s1,
            Factory._ObtainElement xp self name s = (Raise x, s1) ->
            Factory.__setitem__ xp self name value s = (Raise x, s1))
      /\ (safe_path name = true ->
          exists r s1, Factory._ObtainElement xp self name s = (Ok r, s1))).
Proof.
  intros He. assert (Hp : is_Some (s !! root self)) by (rewrite He; eauto).
  split.
  - intros Hone.
    destruct (split_once "@" name Hone) as (a & b & Hsplit & Hname & Ha & Hb).
    assert (Hat : PyStr.contains "@" name = true).
    { destruct (PyStr.contains "@" name) eqn:Hat; [reflexivity|].
      apply contains_count in Hat. lia. }
    exists a, b. split; [exact Hname|]. split; [exact Ha|]. split; [exact Hb|].
    split; [|split].
    + intros r s1 Hres.
      destruct (ObtainElement_valid xp self a s r s1 Hp Hres) as [e1 He1].
      exists e1. split; [exact He1|].
      apply (setitem_attrib xp _ _ _ _ a b); assumption.
    + intros x s1 Hres. apply (setitem_attrib_raise xp _ _ _ _ a b); assumption.
    + intros Hsafe.
      destruct (ObtainElement_grown xp self a s Hp Hsafe) as (r & s1 & Hres & _).
      exists r, s1. exact Hres.
  - intros Hat. split; [|split].
    + intros r s1 Hres.
      destruct (ObtainElement_valid xp self name s r s1 Hp Hres) as [e1 He1].
      exists e1. split; [exact He1|]. apply setitem_text; assumption.
    + intros x s1 Hres. apply setitem_text_raise; assumption.
    + intros Hsafe.
      destruct (ObtainElement_grown xp self name s Hp Hsafe) as (r & s1 & Hres & _).
      exists r, s1. exact Hres.
Qed.

Lemma setitem_attribute_or_text_witness :
  sample !! 0 = Some (mkElement "root" [1; 2] ∅ None)
  /\ PyStr.count "@" "alpha/bravo@cls" = 1
  /\ exists element_name attr_name,
       "alpha/bravo@cls" = (element_name ++ "@" ++ attr_name)%string
       /\ PyStr.contains "@" element_name = false
       /\ PyStr.contains "@" attr_name = false
       /\ (forall r s1,
             Factory._ObtainElement rejecting sample_root element_name sample = (Ok r, s1) ->
             exists e1,
               s1 !! r = Some e1
               /\ Factory.__setitem__ rejecting sample_root "alpha/bravo@cls" (PyInt 7) sample
                  = (Ok (mkXmlFactory r),
                     <[r := with_attrib e1 (<[attr_name := str (PyInt 7)]> (attrib e1))]> s1))
       /\ (forall x s1,
             Factory._ObtainElement rejecting sample_root element_name sample = (Raise x, s1) ->
             Factory.__setitem__ rejecting sample_root "alpha/bravo@cls" (PyInt 7) sample
             = (Raise x, s1))
       /\ (safe_path element_name = true ->
           exists r s1,
             Factory._ObtainElement rejecting sample_root element_name sample = (Ok r, s1)).
Proof.
  split; [reflexivity|]. split; [reflexivity|].
  exact (proj1 (setitem_attribute_or_text rejecting sample_root "alpha/bravo@cls"
                  (PyInt 7) sample (mkElement "root" [1; 2] ∅ None) eq_refl) eq_refl).
Defined.

Example setitem_creates_bravo :
  Factory.__setitem__ rejecting sample_root "alpha/bravo@cls" (PyInt 7) sample
  = (Ok (mkXmlFactory 4),
     [ mkElement "root" [1; 2] ∅ None;
       mkElement "alpha" [3; 4] ∅ (Some "one");
       mkElement "alpha" [] ∅ None;
       mkElement "delta" [] ∅ None;
       mkElement "bravo" [] {["cls" := "7"]} None ]).
Proof. reflexivity. Qed.

(** C7, as it stands, fails on a path whose last part carries the force
    marker: each assignment makes its own [delta], and the first one keeps
    its text.  It fails as well on [..], a path without force marker that
    [find] never answers: each assignment makes an element of its own. *)
Lemma text_set_twice_forced_counterexample :
  PyStr.contains "@" "alpha/delta+" = false
  /\ (exists s1 s2 e1,
        Factory.__setitem__ rejecting sample_root "alpha/delta+" (PyString "XXX") sample
        = (Ok (mkXmlFactory 4), s1)
        /\ Factory.__setitem__ rejecting sample_root "alpha/delta+" (PyString "YYY") s1
           = (Ok (mkXmlFactory 5), s2)
        /\ length s2 = S (length s1)
        /\ s2 !! 4 = Some (mkElement "delta" [] ∅ (Some "XXX"))
        /\ s2 !! 5 = Some (mkElement "delta" [] ∅ (Some "YYY"))
        /\ s2 !! 1 = Some e1
        /\ children e1 = [3; 4; 5])
  /\ PyStr.contains "@" ".." = false
  /\ PyStr.endswith ".." "+" = false
  /\ exists s1 s2 e0,
       Factory.__setitem__ rejecting sample_root ".." (PyString "XXX") sample
       = (Ok (mkXmlFactory 4), s1)
       /\ Factory.__setitem__ rejecting sample_root ".." (PyString "YYY") s1
          = (Ok (mkXmlFactory 5), s2)
       /\ length s2 = S (length s1)
       /\ s2 !! 4 = Some (mkElement ".." [] ∅ (Some "XXX"))
       /\ s2 !! 5 = Some (mkElement ".." [] ∅ (Some "YYY"))
       /\ s2 !! 0 = Some e0
       /\ children e0 = [1; 2; 4; 5].
Proof.
  split; [reflexivity|]. split.
  { eexists _, _, _. split; [reflexivity|]. split; [reflexivity|]. repeat split. }
  split; [reflexivity|]. split; [reflexivity|].
  eexists _, _, _. split; [reflexivity|]. split; [reflexivity|]. repeat split.
Qed.

(** C7, amended.  On a path every part of which is a plain tag name (not
    empty; letters, digits, [_] and [-] only, hence no force marker),
    setting a text value twice leaves the text of the element equal to the
    string form of the value assigned last, the first value being gone;
    both assignments address the same element and the second creates no
    element. *)
Theorem text_set_twice_last_wins
    (xp : ElementPath) (self : XmlFactory) (name : string) (v1 v2 : PyValue)
    (s : Store) (e : Element) :
  s !! root self = Some e ->
  well_formed s ->
  PyStr.contains "@" name = false ->
  tag_path name = true ->
  exists r s0 e0,
    Factory._ObtainElement xp self name s = (Ok r, s0)
    /\ s0 !! r = Some e0
    /\ let s1 := <[r := with_text e0 (Some (str v1))]> s0 in
       let s2 := <[r := with_text e0 (Some (str v2))]> s0 in
       Factory.__setitem__ xp self name v1 s = (Ok (mkXmlFactory r), s1)
       /\ Factory.__setitem__ xp self name v2 s1 = (Ok (mkXmlFactory r), s2)
       /\ text <$> s2 !! r = Some (Some (str v2))
       /\ length s2 = length s1.
Proof.
  intros He Hwf Hat Hnf.
  assert (Hp : is_Some (s !! root self)) by (rewrite He; eauto).
  destruct (ObtainElement_grown xp self name s Hp (tag_path_safe _ Hnf))
    as (r & s0 & Hres & ([e0 He0] & _)).
  exists r, s0, e0. split; [exact Hres|]. split; [exact He0|]. intros s1 s2.
  assert (Hr : r < length s0) by (eapply lookup_lt_Some; eassumption).
  assert (He1 : s1 !! r = Some (with_text e0 (Some (str v1))))
    by (apply list_lookup_insert_eq; exact Hr).
  split; [apply setitem_text; assumption|].
  split.
  - assert (Hagain : Factory._ObtainElement xp self name s1 = (Ok r, s1)).
    { apply (ObtainElement_again xp self name s r s0); try assumption.
      apply (extends_insert _ _ e0); auto. }
    rewrite (setitem_text _ _ _ _ _ _ _ _ Hat Hagain He1).
    unfold s1, s2. rewrite list_insert_insert_eq. reflexivity.
  - split.
    + unfold s2. rewrite list_lookup_insert_eq by exact Hr. reflexivity.
    + unfold s1, s2. rewrite !length_insert. reflexivity.
Qed.

Lemma text_set_twice_last_wins_witness :
  sample !! 0 = Some (mkElement "root" [1; 2] ∅ None)
  /\ well_formed sample
  /\ PyStr.contains "@" "alpha/delta" = false
  /\ tag_path "alpha/delta" = true
  /\ exists r s0 e0,
       Factory._ObtainElement rejecting sample_root "alpha/delta" sample = (Ok r, s0)
       /\ s0 !! r = Some e0
       /\ let s1 := <[r := with_text e0 (Some (str (PyString "XXX")))]> s0 in
          let s2 := <[r := with_text e0 (Some (str (PyString "YYY")))]> s0 in
          Factory.__setitem__ rejecting sample_root "alpha/delta" (PyString "XXX") sample
          = (Ok (mkXmlFactory r), s1)
          /\ Factory.__setitem__ rejecting sample_root "alpha/delta" (PyString "YYY") s1
             = (Ok (mkXmlFactory r), s2)
          /\ text <$> s2 !! r = Some (Some (str (PyString "YYY")))
          /\ length s2 = length s1.
Proof.
  split; [reflexivity|]. split; [exact sample_well_formed|].
  split; [reflexivity|]. split; [reflexivity|].
  exact (text_set_twice_last_wins rejecting sample_root "alpha/delta"
           (PyString "XXX") (PyString "YYY") sample
           (mkElement "root" [1; 2] ∅ None) eq_refl sample_well_formed
           eq_refl eq_refl).
Defined.




Example setitem_attribute_keeps_text :
  exists s2,
    Factory.__setitem__ rejecting sample_root "alpha@cls" (PyString "X") sample
    = (Ok (mkXmlFactory 1), s2)
    /\ s2 !! 1 = Some (mkElement "alpha" [3] {["cls" := "X"]} (Some "one")).
Proof. eexists. split; reflexivity. Qed.

(** ** Construction and reading *)

(** C6.  The constructor raises, with [TypeError], exactly when its
    argument is neither a string nor an element: a string makes a fresh
    root element with that tag, an element is wrapped as it is.  [Get]
    raises, with the [AssertionError] of its assertion, whenever the path
    holds the attribute marker, and then leaves the tree alone. *)
Theorem constructor_and_get_errors :
  (forall root_element s,
     Factory.__init__ root_element s = (Raise TypeError, s)
     <-> (forall t, root_element <> ArgValue (PyString t))
         /\ (forall r, root_element <> ArgElement r))
  /\ (forall t s,
        Factory.__init__ (ArgValue (PyString t)) s
        = (Ok (mkXmlFactory (length s)), s ++ [mkElement t [] ∅ None]))
  /\ (forall r s, Factory.__init__ (ArgElement r) s = (Ok (mkXmlFactory r), s))
  /\ (forall xp self name s,
        PyStr.contains "@" name = true ->
        Factory.__getitem__ xp self name s = (Raise AssertionError, s)).
Proof.
  split; [|split; [|split]].
  - intros [[t|z|b|]|r] s; simpl; unfold bind, ret, raise; simpl; split;
      try discriminate; try (intros _; split; discriminate);
      try reflexivity.
    + intros [H _]. exfalso. apply (H t). reflexivity.
    + intros [_ H]. exfalso. apply (H r). reflexivity.
  - reflexivity.
  - reflexivity.
  - intros xp self name s Hat. unfold Factory.__getitem__. rewrite Hat. reflexivity.
Qed.

Lemma constructor_and_get_errors_witness :
  Factory.__init__ (ArgValue (PyInt 3)) sample = (Raise TypeError, sample)
  /\ Factory.__init__ (ArgValue PyNone) sample = (Raise TypeError, sample)
  /\ PyStr.contains "@" "alpha@cls" = true
  /\ Factory.__getitem__ rejecting sample_root "alpha@cls" sample
     = (Raise AssertionError, sample).
Proof.
  destruct constructor_and_get_errors as (Hinit & _ & _ & Hget).
  split; [apply Hinit; split; discriminate|].
  split; [apply Hinit; split; discriminate|].
  split; [reflexivity|]. apply Hget. reflexivity.
Defined.

(** ** Printing *)

Lemma append_assoc (a b c : string) : ((a ++ b) ++ c = a ++ (b ++ c))%string.
Proof.
  induction a as [|x a IH]; [reflexivity|].
  change (String x ((a ++ b) ++ c) = String x (a ++ b ++ c))%string.
  rewrite IH. reflexivity.
Qed.

Example xml_declaration_text :
  xml_declaration
  = ("<?xml version=" ++ String "034" ("1.0" ++ String "034" (" ?>" ++ String "010" "")))%string
  /\ String.length xml_declaration = 23.
Proof. split; reflexivity. Qed.

(** C9.  [Print] with the header flag writes the declaration
    [<?xml version="1.0" ?>], that is the fourteen characters up to the
    equals sign, a double quote (character 34), [1.0], a double quote, a
    blank, [?>], and then a line feed (character 10); after it comes the
    text of the pretty-printer for the current element.  Without the flag
    it writes that text alone.  [GetContents] returns what [Print] writes,
    rendered into an empty in-memory stream, and neither changes the
    tree. *)
Theorem print_and_contents
    (render : PrettyPrinter) (self : XmlFactory) (oss : Stream) (s : Store) :
  Factory.Print render self oss true s
  = (Ok (oss ++ xml_declaration ++ render s (root self))%string, s)
  /\ Factory.Print render self oss false s
     = (Ok (oss ++ render s (root self))%string, s)
  /\ (forall xml_header, exists out,
        Factory.Print render self StringIO xml_header s = (Ok out, s)
        /\ Factory.Print render self oss xml_header s = (Ok (oss ++ out)%string, s)
        /\ Factory.GetContents render self xml_header s = (Ok out, s))
  /\ Factory.GetContents render self true s
     = (Ok ("<?xml version="
            ++ String "034" ("1.0" ++ String "034" (" ?>" ++ String "010" ""))
            ++ render s (root self))%string, s)
  /\ Factory.GetContents render self false s = (Ok (render s (root self)), s)
  /\ Factory.Print render self oss true s
     = (Ok (oss ++ "<?xml version="
                ++ String "034" ("1.0" ++ String "034" (" ?>" ++ String "010" ""))
                ++ render s (root self))%string, s).
Proof.
  assert (Hprint : Factory.Print render self oss true s
    = (Ok (oss ++ xml_declaration ++ render s (root self))%string, s)).
  { unfold Factory.Print, bind, WritePrettyXMLElement, Stream_write, ret.
    cbv beta iota. rewrite append_assoc. reflexivity. }
  split; [exact Hprint|]. split; [reflexivity|]. split; [|split; [|split]].
  - intros [|].
    + exists (xml_declaration ++ render s (root self))%string.
      split; [reflexivity|]. split; [exact Hprint|reflexivity].
    + exists (render s (root self)). repeat split.
  - reflexivity.
  - reflexivity.
  - rewrite Hprint. reflexivity.
Qed.

Example contents_of_sample :
  Factory.GetContents tag_only sample_root true sample
  = (Ok (xml_declaration ++ "root")%string, sample).
Proof. reflexivity. Qed.

(** * Further properties of the facade *)

(** ** Paths as lists of parts *)

(** X1.  Descending in one path or in two steps is the same: for non-empty
    [p] and [q] without attribute marker, [xml[p/q]] is [xml[p][q]], with
    the same result, the same store and the same elements created. *)
Theorem getitem_path_composes
    (xp : ElementPath) (self : XmlFactory) (p q : string) (s : Store) :
  p <> "" -> q <> "" ->
  PyStr.contains "@" p = false ->
  PyStr.contains "@" q = false ->
  Factory.__getitem__ xp self (p ++ "/" ++ q)%string s
  = bind (Factory.__getitem__ xp self p) (fun inner => Factory.__getitem__ xp inner q) s.
Proof.
  intros Hp Hq Hatp Hatq.
  assert (Hat : PyStr.contains "@" (p ++ "/" ++ q)%string = false)
    by (rewrite !contains_app, Hatp, Hatq; reflexivity).
  unfold bind.
  rewrite (getitem_eq _ _ _ _ Hat), (getitem_eq _ _ _ _ Hatp).
  rewrite ObtainElement_slash by assumption. unfold bind.
  destruct (Factory._ObtainElement xp self p s) as [[r|x] s']; [|reflexivity].
  rewrite (getitem_eq _ _ _ _ Hatq). reflexivity.
Qed.

Lemma getitem_path_composes_witness :
  "alpha" <> "" /\ "delta/x+" <> ""
  /\ PyStr.contains "@" "alpha" = false
  /\ PyStr.contains "@" "delta/x+" = false
  /\ Factory.__getitem__ rejecting sample_root "alpha/delta/x+" sample
     = bind (Factory.__getitem__ rejecting sample_root "alpha")
            (fun inner => Factory.__getitem__ rejecting inner "delta/x+") sample.
Proof.
  split; [discriminate|]. split; [discriminate|].
  split; [reflexivity|]. split; [reflexivity|].
  apply (getitem_path_composes rejecting sample_root "alpha" "delta/x+" sample);
    [discriminate|discriminate|reflexivity|reflexivity].
Defined.

(** ** What a resolution can do to the store *)

Lemma preserved_refl s : preserved s s.
Proof.
  split; [lia|]. intros i e He. exists e. split; [exact He|].
  repeat split. exists []. rewrite app_nil_r. split; [reflexivity|].
  intros d Hd. inversion Hd.
Qed.

Lemma preserved_trans s1 s2 s3 : preserved s1 s2 -> preserved s2 s3 -> preserved s1 s3.
Proof.
  intros [Hl12 H12] [Hl23 H23]. split; [lia|]. intros i e He.
  destruct (H12 i e He) as (e2 & He2 & Htag2 & Htext2 & Hat2 & x2 & Hch2 & Hx2).
  destruct (H23 i e2 He2) as (e3 & He3 & Htag3 & Htext3 & Hat3 & x3 & Hch3 & Hx3).
  exists e3. split; [exact He3|]. split; [congruence|]. split; [congruence|].
  split; [congruence|]. exists (x2 ++ x3).
  split; [rewrite Hch3, Hch2, app_assoc; reflexivity|].
  intros d Hd. apply elem_of_app in Hd as [Hd|Hd].
  - specialize (Hx2 d Hd). lia.
  - specialize (Hx3 d Hd). lia.
Qed.

Lemma preserved_store_with_child s parent e t :
  s !! parent = Some e -> preserved s (store_with_child s parent e t).
Proof.
  intros He. unfold preserved. rewrite store_with_child_length. split; [lia|].
  intros i ei Hi. destruct (decide (i = parent)) as [->|Hne].
  - rewrite He in Hi. injection Hi as <-.
    rewrite (store_with_child_parent _ _ _ _ He). eexists. split; [reflexivity|].
    simpl. repeat split. exists [length s]. split; [reflexivity|].
    intros d Hd. apply list_elem_of_singleton in Hd. lia.
  - apply lookup_lt_Some in Hi as Hlt.
    rewrite store_with_child_other by (assumption || lia).
    exists ei. split; [exact Hi|]. repeat split. exists [].
    rewrite app_nil_r. split; [reflexivity|]. intros d Hd. inversion Hd.
Qed.

(** X2.  Resolving a path never loses or rewrites anything, whether it
    returns or raises: every element that was there is still in its place
    with its tag, text and attributes, its children in the same order,
    followed at most by elements created by this resolution.  What it
    returns is an element of the new store, and [Get] on a path without
    attribute marker hands out the same outcome. *)
Theorem resolution_preserves_store
    (xp : ElementPath) (self : XmlFactory) (name : string) (s : Store) :
  is_Some (s !! root self) ->
  exists res s',
    Factory._ObtainElement xp self name s = (res, s')
    /\ preserved s s'
    /\ (forall r, res = Ok r -> is_Some (s' !! r))
    /\ (PyStr.contains "@" name = false ->
        Factory.__getitem__ xp self name s
        = (match res with
           | Ok r => Ok (mkXmlFactory r)
           | Raise x => Raise x
           end, s')).
Proof.
  intros Hp.
  destruct (ObtainElement_induct xp (preserved s)) with (self := self) (name := name) (s := s)
    as (res & s' & Hres & Hpres & Hvalid).
  - intros s0 parent e t He Hs0. eapply preserved_trans; [exact Hs0|].
    apply preserved_store_with_child. exact He.
  - exact Hp.
  - apply preserved_refl.
  - exists res, s'. split; [exact Hres|]. split; [exact Hpres|].
    split; [exact Hvalid|].
    intros Hat. rewrite (getitem_eq _ _ _ _ Hat), Hres. destruct res; reflexivity.
Qed.

Lemma resolution_preserves_store_witness :
  is_Some (sample !! 0)
  /\ exists res s',
       Factory._ObtainElement rejecting sample_root "alpha/x+/y" sample = (res, s')
       /\ preserved sample s'
       /\ (forall r, res = Ok r -> is_Some (s' !! r))
       /\ (PyStr.contains "@" "alpha/x+/y" = false ->
           Factory.__getitem__ rejecting sample_root "alpha/x+/y" sample
           = (match res with
              | Ok r => Ok (mkXmlFactory r)
              | Raise x => Raise x
              end, s')).
Proof.
  assert (H0 : is_Some (sample !! 0)) by (simpl; eauto).
  split; [exact H0|].
  exact (resolution_preserves_store rejecting sample_root "alpha/x+/y" sample H0).
Defined.

(** ** How many elements a path makes *)

Lemma obtain_parts_created xp parts : forall s parent,
  is_Some (s !! parent) ->
  exists res s', Factory.obtain_parts xp parts parent s = (res, s')
                 /\ length s <= length s' <= length s + length parts
                 /\ (all_forced parts = true ->
                     length s' = length s + length parts /\ exists r, res = Ok r).
Proof.
  induction parts as [|i_part rest IH]; intros s parent Hp.
  - exists (Ok parent), s. split; [reflexivity|]. simpl. split; [lia|].
    intros _. split; [lia|eauto].
  - destruct Hp as [e He].
    destruct (obtain_part_outcomes xp s parent e i_part He)
      as [(Hf & x & Hc)|[(Hf & c & Hc & Hvalid)|(t & Hc)]].
    + rewrite (obtain_parts_cons_raise _ _ _ _ _ _ _ Hc).
      exists (Raise x), s. split; [reflexivity|]. simpl. split; [lia|].
      rewrite Hf. discriminate.
    + rewrite (obtain_parts_cons _ _ _ _ _ _ _ Hc).
      destruct (IH s c Hvalid) as (res & s' & Hres & Hlen & _).
      exists res, s'. split; [exact Hres|]. simpl. split; [lia|].
      rewrite Hf. discriminate.
    + rewrite (obtain_parts_cons _ _ _ _ _ _ _ Hc).
      destruct (IH (store_with_child s parent e t) (length s))
        as (res & s' & Hres & Hlen & Hall).
      { rewrite (store_with_child_fresh _ _ _ _ He). eauto. }
      rewrite store_with_child_length in Hlen, Hall.
      exists res, s'. split; [exact Hres|]. simpl. split; [lia|].
      intros Hforced. apply andb_prop in Hforced as [_ Hforced].
      destruct (Hall Hforced) as [Hexact Hok]. split; [lia|exact Hok].
Qed.

(** X3.  A non-empty path with [k] slashes makes at most [k + 1] elements
    and removes none, whether its resolution returns or raises; when every
    part carries the force marker the resolution returns and makes exactly
    [k + 1]. *)
Theorem resolution_creates_at_most_one_per_part
    (xp : ElementPath) (self : XmlFactory) (name : string) (s : Store) :
  is_Some (s !! root self) ->
  name <> "" ->
  exists res s',
    Factory._ObtainElement xp self name s = (res, s')
    /\ length s <= length s' <= length s + S (PyStr.count "/" name)
    /\ (all_forced (PyStr.split "/" name) = true ->
        length s' = length s + S (PyStr.count "/" name) /\ exists r, res = Ok r).
Proof.
  intros Hp Hne. rewrite ObtainElement_parts by exact Hne.
  destruct (obtain_parts_created xp (PyStr.split "/" name) s (root self) Hp)
    as (res & s' & Hres & Hlen & Hall).
  rewrite split_length in Hlen, Hall. exists res, s'. auto.
Qed.

Lemma resolution_creates_at_most_one_per_part_witness :
  is_Some (sample !! 0) /\ "alpha+/x+" <> ""
  /\ exists res s',
       Factory._ObtainElement rejecting sample_root "alpha+/x+" sample = (res, s')
       /\ length sample <= length s' <= length sample + S (PyStr.count "/" "alpha+/x+")
       /\ (all_forced (PyStr.split "/" "alpha+/x+") = true ->
           length s' = length sample + S (PyStr.count "/" "alpha+/x+")
           /\ exists r, res = Ok r).
Proof.
  assert (H0 : is_Some (sample !! 0)) by (simpl; eauto).
  split; [exact H0|]. split; [discriminate|].
  apply (resolution_creates_at_most_one_per_part rejecting sample_root "alpha+/x+" sample H0).
  discriminate.
Defined.

(** ** Addressing the same element again *)

(** X4.  [Get] on a path every part of which is a plain tag name is
    repeatable on a whole path, not only on one part: the second call
    returns a facade on the same element and leaves the store exactly as
    the first call left it. *)
Theorem getitem_twice_same_element
    (xp : ElementPath) (self : XmlFactory) (name : string) (s : Store) :
  is_Some (s !! root self) ->
  well_formed s ->
  PyStr.contains "@" name = false ->
  tag_path name = true ->
  exists r s1,
    Factory.__getitem__ xp self name s = (Ok (mkXmlFactory r), s1)
    /\ Factory.__getitem__ xp self name s1 = (Ok (mkXmlFactory r), s1).
Proof.
  intros Hp Hwf Hat Hnf.
  destruct (ObtainElement_grown xp self name s Hp (tag_path_safe _ Hnf))
    as (r & s1 & Hres & _).
  exists r, s1. rewrite !getitem_eq by exact Hat. rewrite Hres.
  split; [reflexivity|].
  rewrite (ObtainElement_again xp self name s r s1 Hnf Hwf Hp Hres s1 (extends_refl s1)).
  reflexivity.
Qed.

Lemma getitem_twice_same_element_witness :
  is_Some (sample !! 0)
  /\ well_formed sample
  /\ PyStr.contains "@" "alpha/bravo/charlie" = false
  /\ tag_path "alpha/bravo/charlie" = true
  /\ exists r s1,
       Factory.__getitem__ rejecting sample_root "alpha/bravo/charlie" sample
       = (Ok (mkXmlFactory r), s1)
       /\ Factory.__getitem__ rejecting sample_root "alpha/bravo/charlie" s1
          = (Ok (mkXmlFactory r), s1).
Proof.
  assert (H0 : is_Some (sample !! 0)) by (simpl; eauto).
  split; [exact H0|]. split; [exact sample_well_formed|].
  split; [reflexivity|]. split; [reflexivity|].
  exact (getitem_twice_same_element rejecting sample_root "alpha/bravo/charlie" sample
           H0 sample_well_formed eq_refl eq_refl).
Defined.

(** X5.  What [Set] writes, [Get] finds: after a text assignment on a path
    every part of which is a plain tag name, [Get] on the same path
    returns a facade on the element that was assigned to, creates nothing,
    and that element holds the string form of the value as its text. *)
Theorem setitem_then_getitem
    (xp : ElementPath) (self : XmlFactory) (name : string) (value : PyValue)
    (s : Store) :
  is_Some (s !! root self) ->
  well_formed s ->
  PyStr.contains "@" name = false ->
  tag_path name = true ->
  exists r s1 e1,
    Factory.__setitem__ xp self name value s = (Ok (mkXmlFactory r), s1)
    /\ Factory.__getitem__ xp self name s1 = (Ok (mkXmlFactory r), s1)
    /\ s1 !! r = Some e1
    /\ text e1 = Some (str value).
Proof.
  intros Hp Hwf Hat Hnf.
  destruct (ObtainElement_grown xp self name s Hp (tag_path_safe _ Hnf))
    as (r & s0 & Hres & ([e0 He0] & _)).
  assert (Hr : r < length s0) by (eapply lookup_lt_Some; eassumption).
  exists r, (<[r := with_text e0 (Some (str value))]> s0), (with_text e0 (Some (str value))).
  split; [apply setitem_text; assumption|].
  split; [|split; [apply list_lookup_insert_eq; exact Hr|reflexivity]].
  rewrite (getitem_eq _ _ _ _ Hat).
  rewrite (ObtainElement_again xp self name s r s0 Hnf Hwf Hp Hres); [reflexivity|].
  apply (extends_insert _ _ e0); auto.
Qed.

Lemma setitem_then_getitem_witness :
  is_Some (sample !! 0)
  /\ well_formed sample
  /\ PyStr.contains "@" "alpha/bravo" = false
  /\ tag_path "alpha/bravo" = true
  /\ exists r s1 e1,
       Factory.__setitem__ rejecting sample_root "alpha/bravo" (PyInt 12) sample
       = (Ok (mkXmlFactory r), s1)
       /\ Factory.__getitem__ rejecting sample_root "alpha/bravo" s1
          = (Ok (mkXmlFactory r), s1)
       /\ s1 !! r = Some e1
       /\ text e1 = Some (str (PyInt 12)).
Proof.
  assert (H0 : is_Some (sample !! 0)) by (simpl; eauto).
  split; [exact H0|]. split; [exact sample_well_formed|].
  split; [reflexivity|]. split; [reflexivity|].
  exact (setitem_then_getitem rejecting sample_root "alpha/bravo" (PyInt 12) sample
           H0 sample_well_formed eq_refl eq_refl).
Defined.

(** X6.  Assignments through one path of plain tag names meet on one
    element and add up: an attribute [a], then an attribute [b], then the
    text all land on the element the first assignment made or found; the
    later ones create nothing, [b] and the text hold the string forms of
    their values, and [a] keeps its value unless [b] is the same name. *)
Theorem assignments_accumulate
    (xp : ElementPath) (self : XmlFactory) (p a b : string) (v1 v2 v3 : PyValue)
    (s : Store) :
  is_Some (s !! root self) ->
  well_formed s ->
  PyStr.contains "@" p = false ->
  PyStr.contains "@" a = false ->
  PyStr.contains "@" b = false ->
  tag_path p = true ->
  exists r s1 s2 s3 e3,
    Factory.__setitem__ xp self (p ++ "@" ++ a)%string v1 s = (Ok (mkXmlFactory r), s1)
    /\ Factory.__setitem__ xp self (p ++ "@" ++ b)%string v2 s1 = (Ok (mkXmlFactory r), s2)
    /\ Factory.__setitem__ xp self p v3 s2 = (Ok (mkXmlFactory r), s3)
    /\ length s3 = length s1
    /\ s3 !! r = Some e3
    /\ attrib e3 !! b = Some (str v2)
    /\ (a <> b -> attrib e3 !! a = Some (str v1))
    /\ text e3 = Some (str v3).
Proof.
  intros Hp Hwf Hatp Hata Hatb Hnf.
  destruct (ObtainElement_grown xp self p s Hp (tag_path_safe _ Hnf))
    as (r & s0 & Hres & ([e0 He0] & _)).
  assert (Hr : r < length s0) by (eapply lookup_lt_Some; eassumption).
  destruct (rsplit_marker p a Hatp Hata) as [Hsa Hca].
  destruct (rsplit_marker p b Hatp Hatb) as [Hsb Hcb].
  set (e1 := with_attrib e0 (<[a := str v1]> (attrib e0))).
  set (s1 := <[r := e1]> s0).
  set (e2 := with_attrib e1 (<[b := str v2]> (attrib e1))).
  set (s2 := <[r := e2]> s1).
  set (e3 := with_text e2 (Some (str v3))).
  set (s3 := <[r := e3]> s2).
  assert (He1 : s1 !! r = Some e1) by (apply list_lookup_insert_eq; exact Hr).
  assert (Hr1 : r < length s1) by (eapply lookup_lt_Some; eassumption).
  assert (He2 : s2 !! r = Some e2) by (apply list_lookup_insert_eq; exact Hr1).
  assert (Hr2 : r < length s2) by (eapply lookup_lt_Some; eassumption).
  assert (Hx1 : extends s0 s1) by (apply (extends_insert _ _ e0); auto).
  assert (Hx2 : extends s0 s2).
  { eapply extends_trans; [exact Hx1|]. apply (extends_insert _ _ e1); auto. }
  exists r, s1, s2, s3, e3.
  split; [apply (setitem_attrib xp _ _ _ _ p a); assumption|].
  split.
  { apply (setitem_attrib xp _ _ _ _ p b); try assumption.
    apply (ObtainElement_again xp self p s r s0); assumption. }
  split.
  { apply setitem_text; try assumption.
    apply (ObtainElement_again xp self p s r s0); assumption. }
  split; [unfold s3, s2; rewrite !length_insert; reflexivity|].
  split; [apply list_lookup_insert_eq; exact Hr2|].
  simpl. split; [apply lookup_insert_eq|]. split; [|reflexivity].
  intros Hab. rewrite lookup_insert_ne by congruence. apply lookup_insert_eq.
Qed.

Lemma assignments_accumulate_witness :
  is_Some (sample !! 0)
  /\ well_formed sample
  /\ PyStr.contains "@" "alpha/delta" = false
  /\ PyStr.contains "@" "id" = false
  /\ PyStr.contains "@" "cls" = false
  /\ tag_path "alpha/delta" = true
  /\ exists r s1 s2 s3 e3,
       Factory.__setitem__ rejecting sample_root "alpha/delta@id" (PyInt 1) sample
       = (Ok (mkXmlFactory r), s1)
       /\ Factory.__setitem__ rejecting sample_root "alpha/delta@cls" (PyString "X") s1
          = (Ok (mkXmlFactory r), s2)
       /\ Factory.__setitem__ rejecting sample_root "alpha/delta" PyNone s2
          = (Ok (mkXmlFactory r), s3)
       /\ length s3 = length s1
       /\ s3 !! r = Some e3
       /\ attrib e3 !! "cls" = Some (str (PyString "X"))
       /\ ("id" <> "cls" -> attrib e3 !! "id" = Some (str (PyInt 1)))
       /\ text e3 = Some (str PyNone).
Proof.
  assert (H0 : is_Some (sample !! 0)) by (simpl; eauto).
  split; [exact H0|]. split; [exact sample_well_formed|].
  split; [reflexivity|]. split; [reflexivity|]. split; [reflexivity|].
  split; [reflexivity|].
  exact (assignments_accumulate rejecting sample_root "alpha/delta" "id" "cls"
           (PyInt 1) (PyString "X") PyNone sample
           H0 sample_well_formed eq_refl eq_refl eq_refl eq_refl).
Defined.

(** X7.  A forced part does not become the target of later plain lookups
    when the tag was already there: for a plain tag name [t], after [t+]
    made a new child, the path [t] still resolves to the first child
    tagged [t], which is the new one only if the parent had none before. *)
Theorem plain_lookup_after_forced
    (xp : ElementPath) (self : XmlFactory) (t : string) (s : Store) (e : Element) :
  s !! root self = Some e ->
  well_formed s ->
  PyStr.is_tag_name t = true ->
  exists s1,
    Factory._ObtainElement xp self (t ++ "+")%string s = (Ok (length s), s1)
    /\ (forall c, first_match s t (children e) c ->
          c <> length s /\ Factory._ObtainElement xp self t s1 = (Ok c, s1))
    /\ ((forall d, d ∈ children e -> ~ has_tag s d t) ->
        Factory._ObtainElement xp self t s1 = (Ok (length s), s1)).
Proof.
  intros He Hwf Ht. destruct (tag_name_plain _ Ht) as (Hne & Hsl & _).
  set (s1 := store_with_child s (root self) e t).
  assert (He1 : s1 !! root self = Some (with_children e (children e ++ [length s])))
    by (apply store_with_child_parent; exact He).
  exists s1. split.
  { rewrite ObtainElement_single
      by (try apply marker_not_empty; rewrite contains_slash_marker; exact Hsl).
    rewrite (obtain_part_forced xp _ _ _ _ He (endswith_marker t)), drop_last_marker.
    reflexivity. }
  rewrite !(ObtainElement_tag_name xp) by exact Ht. split.
  - intros c Hc. split.
    { destruct Hc as (_ & _ & _ & (ec & Hec & _) & _).
      apply lookup_lt_Some in Hec. lia. }
    apply (obtain_part_found xp _ _ _ _ _ He1 Ht). simpl.
    apply (first_tagged_stable s).
    + intros d Hd. exact (Hwf _ _ _ He Hd).
    + apply store_with_child_extends. exact He.
    + apply first_tagged_Some. exact Hc.
  - intros Hnone.
    apply (obtain_part_found xp _ _ _ _ _ He1 Ht). simpl.
    apply first_tagged_appended; [apply has_tag_fresh; exact He|].
    intros d Hd Hdn Htag.
    apply (has_tag_store_with_child _ _ _ _ _ _ He Hdn) in Htag.
    exact (Hnone d Hd Htag).
Qed.

Lemma plain_lookup_after_forced_witness :
  sample !! 0 = Some (mkElement "root" [1; 2] ∅ None)
  /\ well_formed sample
  /\ PyStr.is_tag_name "alpha" = true
  /\ exists s1,
       Factory._ObtainElement rejecting sample_root "alpha+" sample = (Ok 4, s1)
       /\ (forall c, first_match sample "alpha" [1; 2] c ->
             c <> 4 /\ Factory._ObtainElement rejecting sample_root "alpha" s1 = (Ok c, s1))
       /\ ((forall d, d ∈ [1; 2] -> ~ has_tag sample d "alpha") ->
           Factory._ObtainElement rejecting sample_root "alpha" s1 = (Ok 4, s1)).
Proof.
  split; [reflexivity|]. split; [exact sample_well_formed|]. split; [reflexivity|].
  apply (plain_lookup_after_forced rejecting sample_root "alpha" sample
           (mkElement "root" [1; 2] ∅ None));
    [reflexivity|exact sample_well_formed|reflexivity].
Defined.

(** ** The shape of the tree *)

Lemma store_with_child_lookup_inv s parent e t i ei' :
  s !! parent = Some e ->
  store_with_child s parent e t !! i = Some ei' ->
  (i = parent /\ ei' = with_children e (children e ++ [length s]))
  \/ (i = length s /\ ei' = mkElement t [] ∅ None)
  \/ (i <> parent /\ i <> length s /\ s !! i = Some ei').
Proof.
  intros He Hi. destruct (decide (i = parent)) as [->|Hp].
  - left. rewrite (store_with_child_parent _ _ _ _ He) in Hi.
    injection Hi as <-. auto.
  - destruct (decide (i = length s)) as [->|Hn].
    + right. left. rewrite (store_with_child_fresh _ _ _ _ He) in Hi.
      injection Hi as <-. auto.
    + right. right. rewrite store_with_child_other in Hi by assumption. auto.
Qed.

Lemma forest_well_formed s : forest s -> well_formed s.
Proof. intros (Hord & _ & _) i e d Hi Hd. apply (Hord i e d Hi Hd). Qed.

(** Where a child reference of the new store comes from. *)
Lemma store_with_child_child_inv s parent e t i ei' d :
  s !! parent = Some e ->
  (forall j ej x, s !! j = Some ej -> x ∈ children ej -> x < length s) ->
  store_with_child s parent e t !! i = Some ei' ->
  d ∈ children ei' ->
  (d = length s /\ i = parent)
  \/ (d < length s /\ exists ei, s !! i = Some ei /\ d ∈ children ei).
Proof.
  intros He Hwf Hi Hd.
  destruct (store_with_child_lookup_inv _ _ _ _ _ _ He Hi)
    as [[-> ->]|[[-> ->]|(_ & _ & Hold)]].
  - simpl in Hd. apply elem_of_app in Hd as [Hd|Hd].
    + right. split; [exact (Hwf _ _ _ He Hd)|]. exists e. auto.
    + left. apply list_elem_of_singleton in Hd. auto.
  - simpl in Hd. inversion Hd.
  - right. split; [exact (Hwf _ _ _ Hold Hd)|]. exists ei'. auto.
Qed.

Lemma forest_store_with_child s parent e t :
  s !! parent = Some e -> forest s -> forest (store_with_child s parent e t).
Proof.
  intros He Hforest. pose proof (forest_well_formed _ Hforest) as Hwf.
  destruct Hforest as (Hord & Hnodup & Hone).
  assert (Hparent : parent < length s) by (eapply lookup_lt_Some; eassumption).
  split; [|split].
  - intros i ei' d Hi Hd. rewrite store_with_child_length.
    destruct (store_with_child_child_inv _ _ _ _ _ _ _ He Hwf Hi Hd)
      as [[-> ->]|(Hlt & ei & Hei & Hdi)]; [lia|].
    specialize (Hord _ _ _ Hei Hdi). lia.
  - intros i ei' Hi.
    destruct (store_with_child_lookup_inv _ _ _ _ _ _ He Hi)
      as [[-> ->]|[[-> ->]|(_ & _ & Hold)]].
    + simpl. apply NoDup_app. split; [exact (Hnodup _ _ He)|].
      split; [|apply NoDup_singleton].
      intros x Hx Hxn. apply list_elem_of_singleton in Hxn.
      specialize (Hwf _ _ _ He Hx). lia.
    + simpl. apply NoDup_nil_2.
    + exact (Hnodup _ _ Hold).
  - intros i j ei' ej' d Hi Hj Hdi Hdj.
    destruct (store_with_child_child_inv _ _ _ _ _ _ _ He Hwf Hi Hdi)
      as [[-> ->]|(Hlti & ei & Hei & Hdi')];
    destruct (store_with_child_child_inv _ _ _ _ _ _ _ He Hwf Hj Hdj)
      as [[Heq ->]|(Hltj & ej & Hej & Hdj')]; try lia; try reflexivity.
    exact (Hone _ _ _ _ _ Hei Hej Hdi' Hdj').
Qed.

Lemma forest_insert s r e e' :
  s !! r = Some e -> children e' = children e -> forest s -> forest (<[r := e']> s).
Proof.
  intros He Hch (Hord & Hnodup & Hone).
  assert (Hinv : forall i ei', <[r := e']> s !! i = Some ei' ->
                   exists ei, s !! i = Some ei /\ children ei' = children ei).
  { intros i ei' Hi. apply list_lookup_insert_Some in Hi as [(-> & <- & _)|(_ & Hi)].
    - exists e. auto.
    - exists ei'. auto. }
  split; [|split].
  - intros i ei' d Hi Hd. rewrite length_insert.
    destruct (Hinv _ _ Hi) as (ei & Hei & Hci). rewrite Hci in Hd.
    exact (Hord _ _ _ Hei Hd).
  - intros i ei' Hi. destruct (Hinv _ _ Hi) as (ei & Hei & ->).
    exact (Hnodup _ _ Hei).
  - intros i j ei' ej' d Hi Hj Hdi Hdj.
    destruct (Hinv _ _ Hi) as (ei & Hei & Hci). rewrite Hci in Hdi.
    destruct (Hinv _ _ Hj) as (ej & Hej & Hcj). rewrite Hcj in Hdj.
    exact (Hone _ _ _ _ _ Hei Hej Hdi Hdj).
Qed.

Lemma forest_new_root s t : forest s -> forest (s ++ [mkElement t [] ∅ None]).
Proof.
  intros (Hord & Hnodup & Hone).
  assert (Hinv : forall i ei d, (s ++ [mkElement t [] ∅ None]) !! i = Some ei ->
                   d ∈ children ei -> s !! i = Some ei).
  { intros i ei d Hi Hd. apply lookup_app_Some in Hi as [Hi|[_ Hi]]; [exact Hi|].
    apply list_lookup_singleton_Some in Hi as [_ <-]. inversion Hd. }
  split; [|split].
  - intros i ei d Hi Hd. rewrite length_app. simpl.
    specialize (Hord _ _ _ (Hinv _ _ _ Hi Hd) Hd). lia.
  - intros i ei Hi. apply lookup_app_Some in Hi as [Hi|[_ Hi]].
    + exact (Hnodup _ _ Hi).
    + apply list_lookup_singleton_Some in Hi as [_ <-]. apply NoDup_nil_2.
  - intros i j ei ej d Hi Hj Hdi Hdj.
    exact (Hone _ _ _ _ _ (Hinv _ _ _ Hi Hdi) (Hinv _ _ _ Hj Hdj) Hdi Hdj).
Qed.

(** The outcomes of [Set]: the unpacking error, which leaves the store
    alone, or a resolution that raises, or one that returns and is
    followed by one replacement that keeps tag and children. *)
Lemma setitem_outcomes xp self name value s :
  is_Some (s !! root self) ->
  Factory.__setitem__ xp self name value s = (Raise ValueError, s)
  \/ exists path res s1,
       Factory._ObtainElement xp self path s = (res, s1)
       /\ ((exists x, res = Raise x
                      /\ Factory.__setitem__ xp self name value s = (Raise x, s1))
           \/ (exists r e1 e1',
                 res = Ok r /\ s1 !! r = Some e1
                 /\ tag e1' = tag e1 /\ children e1' = children e1
                 /\ Factory.__setitem__ xp self name value s
                    = (Ok (mkXmlFactory r), <[r := e1']> s1))).
Proof.
  intros Hp.
  assert (Hcases : forall path,
    (forall x s1, Factory._ObtainElement xp self path s = (Raise x, s1) ->
       Factory.__setitem__ xp self name value s = (Raise x, s1)) ->
    (forall r s1 e1, Factory._ObtainElement xp self path s = (Ok r, s1) ->
       s1 !! r = Some e1 ->
       exists e1', tag e1' = tag e1 /\ children e1' = children e1
         /\ Factory.__setitem__ xp self name value s
            = (Ok (mkXmlFactory r), <[r := e1']> s1)) ->
    exists path res s1,
       Factory._ObtainElement xp self path s = (res, s1)
       /\ ((exists x, res = Raise x
                      /\ Factory.__setitem__ xp self name value s = (Raise x, s1))
           \/ (exists r e1 e1',
                 res = Ok r /\ s1 !! r = Some e1
                 /\ tag e1' = tag e1 /\ children e1' = children e1
                 /\ Factory.__setitem__ xp self name value s
                    = (Ok (mkXmlFactory r), <[r := e1']> s1)))).
  { intros path Hraise Hok.
    destruct (Factory._ObtainElement xp self path s) as [[r|x] s1] eqn:Hres.
    - destruct (ObtainElement_valid xp self path s r s1 Hp Hres) as [e1 He1].
      destruct (Hok r s1 e1 eq_refl He1) as (e1' & Htag & Hch & Hset).
      exists path, (Ok r), s1. split; [exact Hres|]. right.
      exists r, e1, e1'. auto.
    - exists path, (Raise x), s1. split; [exact Hres|]. left.
      exists x. split; [reflexivity|]. apply Hraise. reflexivity. }
  destruct (PyStr.contains "@" name) eqn:Hat.
  - destruct (PyStr.rsplit "@" name) as [|a [|b [|c l]]] eqn:Hsplit.
    1, 2, 4: left; apply setitem_unpack_fails;
      [exact Hat|rewrite Hsplit; simpl; lia].
    right. apply (Hcases a).
    + intros x s1 Hres. eapply setitem_attrib_raise; eassumption.
    + intros r s1 e1 Hres He1. eexists.
      split; [|split; [|eapply setitem_attrib; eassumption]]; reflexivity.
  - right. apply (Hcases name).
    + intros x s1 Hres. apply setitem_text_raise; assumption.
    + intros r s1 e1 Hres He1. eexists.
      split; [|split; [|eapply setitem_text; eassumption]]; reflexivity.
Qed.

(** X8.  The facade keeps the tree a tree.  On a store that is a forest in
    creation order, the constructor from a tag name, [Get] and [Set] (on
    any name and value, whether they return or raise) leave a forest:
    children come after their parent, no element is listed twice, none has
    two parents.  The facade used stays on an element, and so does the
    facade returned. *)
Theorem facade_keeps_forest (xp : ElementPath) (s : Store) :
  forest s ->
  (forall t, exists f s',
     Factory.__init__ (ArgValue (PyString t)) s = (Ok f, s')
     /\ forest s' /\ is_Some (s' !! root f))
  /\ (forall self name, is_Some (s !! root self) ->
        exists res s',
          Factory.__getitem__ xp self name s = (res, s')
          /\ forest s' /\ is_Some (s' !! root self)
          /\ forall f, res = Ok f -> is_Some (s' !! root f))
  /\ (forall self name value, is_Some (s !! root self) ->
        exists res s',
          Factory.__setitem__ xp self name value s = (res, s')
          /\ forest s' /\ is_Some (s' !! root self)
          /\ forall f, res = Ok f -> is_Some (s' !! root f)).
Proof.
  intros Hforest.
  assert (Hresolve : forall self path, is_Some (s !! root self) ->
    exists res s', Factory._ObtainElement xp self path s = (res, s')
                   /\ (forall r, res = Ok r -> is_Some (s' !! r))
                   /\ forest s' /\ length s <= length s').
  { intros self path Hp.
    destruct (ObtainElement_induct xp (fun s' => forest s' /\ length s <= length s'))
      with (self := self) (name := path) (s := s) as (res & s' & Hres & [Hf Hlen] & Hr).
    - intros s0 parent e t He [Hf0 Hl0].
      split; [apply forest_store_with_child; assumption|].
      rewrite store_with_child_length. lia.
    - exact Hp.
    - split; [exact Hforest|lia].
    - exists res, s'. auto. }
  split; [|split].
  - intros t. eexists _, _. split; [reflexivity|].
    split; [apply forest_new_root; exact Hforest|]. simpl.
    rewrite lookup_app_r by lia. rewrite Nat.sub_diag. simpl. eauto.
  - intros self name Hp. destruct (PyStr.contains "@" name) eqn:Hat.
    + exists (Raise AssertionError), s. unfold Factory.__getitem__. rewrite Hat.
      split; [reflexivity|]. split; [exact Hforest|]. split; [exact Hp|]. discriminate.
    + destruct (Hresolve self name Hp) as (res & s' & Hres & Hr & Hf & Hlen).
      rewrite (getitem_eq _ _ _ _ Hat), Hres.
      assert (Hself : is_Some (s' !! root self)).
      { apply lookup_lt_is_Some. apply lookup_lt_is_Some in Hp. lia. }
      destruct res as [r|x].
      * exists (Ok (mkXmlFactory r)), s'. split; [reflexivity|]. split; [exact Hf|].
        split; [exact Hself|]. intros f [= <-]. apply Hr. reflexivity.
      * exists (Raise x), s'. split; [reflexivity|]. split; [exact Hf|].
        split; [exact Hself|]. discriminate.
  - intros self name value Hp.
    destruct (setitem_outcomes xp self name value s Hp)
      as [Hraise|(path & res & s1 & Hres & Hout)].
    + exists (Raise ValueError), s. split; [exact Hraise|].
      split; [exact Hforest|]. split; [exact Hp|]. discriminate.
    + destruct (Hresolve self path Hp) as (res' & s1' & Hres' & _ & Hf & Hlen).
      rewrite Hres in Hres'. injection Hres' as <- <-.
      assert (Hself : is_Some (s1 !! root self)).
      { apply lookup_lt_is_Some. apply lookup_lt_is_Some in Hp. lia. }
      destruct Hout as [(x & -> & Hset)|(r & e1 & e1' & -> & He1 & _ & Hch & Hset)].
      * exists (Raise x), s1. split; [exact Hset|]. split; [exact Hf|].
        split; [exact Hself|]. discriminate.
      * exists (Ok (mkXmlFactory r)), (<[r := e1']> s1). split; [exact Hset|].
        split; [apply (forest_insert _ _ e1); assumption|].
        split.
        -- apply lookup_lt_is_Some. rewrite length_insert.
           apply lookup_lt_is_Some in Hself. exact Hself.
        -- intros f [= <-]. simpl. apply lookup_lt_is_Some. rewrite length_insert.
           eapply lookup_lt_Some. exact He1.
Qed.

Lemma sample_forest : forest sample.
Proof.
  split; [|split].
  - intros i e d Hi Hd. simpl.
    destruct i as [|[|[|[|i]]]]; simpl in Hi; try discriminate;
      injection Hi as <-; simpl in Hd;
      repeat (apply elem_of_cons in Hd as [->|Hd]; [lia|]); inversion Hd.
  - intros i e Hi.
    destruct i as [|[|[|[|i]]]]; simpl in Hi; try discriminate;
      injection Hi as <-; simpl;
      repeat (apply NoDup_cons_2;
              [intros Hx; repeat (apply elem_of_cons in Hx as [Hx|Hx]; [discriminate|]);
               inversion Hx|]);
      apply NoDup_nil_2.
  - intros i j ei ej d Hi Hj Hdi Hdj.
    destruct i as [|[|[|[|i]]]]; simpl in Hi; try discriminate;
      injection Hi as <-; simpl in Hdi;
      repeat (apply elem_of_cons in Hdi as [->|Hdi]); try (inversion Hdi; fail);
      destruct j as [|[|[|[|j]]]]; simpl in Hj; try discriminate;
      injection Hj as <-; simpl in Hdj; try reflexivity;
      repeat (apply elem_of_cons in Hdj as [Hdj|Hdj]); try discriminate;
      inversion Hdj.
Qed.

Lemma facade_keeps_forest_witness :
  forest sample
  /\ exists res s',
       Factory.__setitem__ rejecting sample_root "alpha/x+@id" (PyInt 3) sample = (res, s')
       /\ forest s' /\ is_Some (s' !! root sample_root)
       /\ forall f, res = Ok f -> is_Some (s' !! root f).
Proof.
  split; [exact sample_forest|].
  apply (proj2 (proj2 (facade_keeps_forest rejecting sample sample_forest))).
  simpl. eauto.
Defined.

(** ** Building below a leaf *)

Lemma obtain_part_leaf xp s parent e i_part :
  s !! parent = Some e -> children e = [] ->
  safe_part i_part = true ->
  Factory.obtain_part xp parent i_part s
  = (Ok (length s), store_with_child s parent e (part_tag i_part)).
Proof.
  intros He Hleaf Hsafe.
  destruct (obtain_part_safe xp s parent e i_part He Hsafe)
    as [(_ & c & Hc & _)|Hstep]; [|exact Hstep].
  rewrite Hleaf in Hc. discriminate.
Qed.

Lemma obtain_parts_leaf xp parts : forall s parent e,
  s !! parent = Some e -> children e = [] -> parts <> [] ->
  forallb safe_part parts = true ->
  exists s',
    Factory.obtain_parts xp parts parent s = (Ok (length s + length parts - 1), s')
    /\ length s' = length s + length parts
    /\ s' !! parent = Some (with_children e [length s])
    /\ (forall i, i < length s -> i <> parent -> s' !! i = s !! i)
    /\ (forall k i_part, parts !! k = Some i_part ->
          s' !! (length s + k)
          = Some (mkElement (part_tag i_part)
                    (if decide (S k = length parts) then [] else [length s + S k])
                    ∅ None)).
Proof.
  induction parts as [|i_part rest IH]; intros s parent e He Hleaf Hne Hsafe;
    [congruence|].
  clear Hne. simpl in Hsafe. apply andb_prop in Hsafe as [Hs1 Hs2].
  assert (Hparent : parent < length s) by (eapply lookup_lt_Some; eassumption).
  pose proof (obtain_part_leaf xp s parent e i_part He Hleaf Hs1) as Hstep.
  set (s1 := store_with_child s parent e (part_tag i_part)) in *.
  assert (Hlen1 : length s1 = S (length s)) by apply store_with_child_length.
  assert (Hp1 : s1 !! parent = Some (with_children e [length s])).
  { unfold s1. rewrite (store_with_child_parent _ _ _ _ He), Hleaf. reflexivity. }
  assert (Hn1 : s1 !! length s = Some (mkElement (part_tag i_part) [] ∅ None))
    by (apply store_with_child_fresh; exact He).
  rewrite (obtain_parts_cons _ _ _ _ _ _ _ Hstep).
  destruct rest as [|i_part' rest'].
  - exists s1.
    replace (length s + length [i_part] - 1) with (length s) by (simpl; lia).
    split; [reflexivity|]. split; [simpl; lia|].
    split; [exact Hp1|]. split.
    + intros i Hi Hip. apply store_with_child_other; [exact Hip|lia].
    + intros [|k] part Hk; [|discriminate]. injection Hk as <-.
      rewrite Nat.add_0_r. exact Hn1.
  - destruct (IH s1 (length s) _ Hn1 eq_refl) as (s' & Hres & Hlen & Hn & Hother & Hchain);
      [discriminate|exact Hs2|].
    exists s'. rewrite Hres. rewrite Hlen1 in *.
    replace (length s + length (i_part :: i_part' :: rest') - 1)
      with (S (length s) + length (i_part' :: rest') - 1) by (simpl; lia).
    split; [reflexivity|].
    split; [rewrite Hlen; simpl; lia|].
    split; [rewrite (Hother parent) by lia; exact Hp1|].
    split.
    + intros i Hi Hip. rewrite Hother by lia.
      apply store_with_child_other; [exact Hip|lia].
    + intros [|k] part Hk.
      * injection Hk as <-. rewrite Nat.add_0_r, Hn. simpl.
        rewrite Nat.add_1_r. reflexivity.
      * simpl in Hk. specialize (Hchain k part Hk).
        replace (length s + S k) with (S (length s) + k) by lia.
        rewrite Hchain. f_equal. f_equal.
        change (length (i_part :: i_part' :: rest')) with (S (length (i_part' :: rest'))).
        destruct (decide (S k = length (i_part' :: rest')));
          destruct (decide (S (S k) = S (length (i_part' :: rest'))));
          try lia; [reflexivity|]. f_equal. lia.
Qed.

(** X9.  From an element without children, a path of [k] parts, each a
    plain tag name or a part with the force marker, builds a chain of [k]
    new elements, one below the other: part number [i] makes the element
    at position [length s + i], tagged with the part less its force
    marker, without text or attributes, whose only child is the next one;
    the last one has no child and is the result.  The starting element
    gets the first one as its only child and nothing else in the store
    changes. *)
Theorem path_below_leaf_builds_chain
    (xp : ElementPath) (self : XmlFactory) (name : string) (s : Store) (e : Element) :
  s !! root self = Some e ->
  children e = [] ->
  forallb safe_part (PyStr.split "/" name) = true ->
  exists s',
    Factory._ObtainElement xp self name s = (Ok (length s + PyStr.count "/" name), s')
    /\ length s' = length s + S (PyStr.count "/" name)
    /\ s' !! root self = Some (with_children e [length s])
    /\ (forall i, i < length s -> i <> root self -> s' !! i = s !! i)
    /\ (forall k i_part, PyStr.split "/" name !! k = Some i_part ->
          s' !! (length s + k)
          = Some (mkElement (part_tag i_part)
                    (if decide (k = PyStr.count "/" name) then [] else [length s + S k])
                    ∅ None)).
Proof.
  intros He Hleaf Hsafe.
  assert (Hne : name <> "") by (intros ->; discriminate).
  rewrite ObtainElement_parts by exact Hne.
  destruct (obtain_parts_leaf xp (PyStr.split "/" name) s (root self) e He Hleaf
              (split_nonempty _ _) Hsafe)
    as (s' & Hres & Hlen & Hp & Hother & Hchain).
  rewrite split_length in Hres, Hlen. exists s'.
  replace (length s + S (PyStr.count "/" name) - 1)
    with (length s + PyStr.count "/" name) in Hres by lia.
  split; [exact Hres|].
  split; [exact Hlen|]. split; [exact Hp|]. split; [exact Hother|].
  intros k part Hk. rewrite (Hchain k part Hk), split_length.
  destruct (decide (S k = S (PyStr.count "/" name)));
    destruct (decide (k = PyStr.count "/" name)); try lia; reflexivity.
Qed.

Lemma path_below_leaf_builds_chain_witness :
  sample !! 3 = Some (mkElement "delta" [] ∅ None)
  /\ children (mkElement "delta" [] ∅ None) = []
  /\ forallb safe_part (PyStr.split "/" "a/b+/c") = true
  /\ exists s',
       Factory._ObtainElement rejecting (mkXmlFactory 3) "a/b+/c" sample
       = (Ok (length sample + PyStr.count "/" "a/b+/c"), s')
       /\ length s' = length sample + S (PyStr.count "/" "a/b+/c")
       /\ s' !! 3 = Some (with_children (mkElement "delta" [] ∅ None) [length sample])
       /\ (forall i, i < length sample -> i <> 3 -> s' !! i = sample !! i)
       /\ (forall k i_part, PyStr.split "/" "a/b+/c" !! k = Some i_part ->
             s' !! (length sample + k)
             = Some (mkElement (part_tag i_part)
                       (if decide (k = PyStr.count "/" "a/b+/c") then []
                        else [length sample + S k])
                       ∅ None)).
Proof.
  split; [reflexivity|]. split; [reflexivity|]. split; [reflexivity|].
  apply (path_below_leaf_builds_chain rejecting (mkXmlFactory 3) "a/b+/c" sample
           (mkElement "delta" [] ∅ None)); reflexivity.
Defined.

Example chain_from_new_root :
  Factory._ObtainElement rejecting (mkXmlFactory 0) "a/b/c" [mkElement "root" [] ∅ None]
  = (Ok 3, [mkElement "root" [1] ∅ None; mkElement "a" [2] ∅ None;
            mkElement "b" [3] ∅ None; mkElement "c" [] ∅ None]).
Proof. reflexivity. Qed.
